(** * Expense tracker API: filter building, pagination, derived metrics,
      goal progress and owner-scoped record access.

    A shallow embedding of the route handlers and Mongoose model code of the
    expense tracker backend (routes/savings.js, routes/expense.js,
    routes/analytics.js, models/Savings.js).

    Conventions of the embedding:
    - a JavaScript Number is an IEEE 754 binary64 value, i.e. Rocq's primitive
      [float]; arithmetic, comparisons, NaN and the infinities behave as in
      the language;
    - an integer-valued Number used as a count or page index (the result of
      [parseInt], of [countDocuments], of [deletedCount]) is a [Z], and a
      quotient of two counts is a rational: such counts stay far below 2^53,
      where the arithmetic of Numbers on them is exact;
    - a query-string parameter is [option string] ([None] is [undefined]);
    - a JavaScript object used as a Mongo filter is a [gmap] from field names
      to clauses; a collection is a [gmap] from [_id] to documents. *)

From Stdlib Require Import ZArith QArith Qround Uint63 Floats Lia Ascii String DecimalString Sorted.
From stdpp Require Import gmap strings list.

(** An ObjectId is kept in its 24-digit hexadecimal string form. *)
Abbreviation ObjectId := string (only parsing).

(** ** JavaScript Numbers *)

Module JS.
Local Open Scope float_scope.

(** [ToBoolean] on a Number: false exactly for [+0], [-0] and [NaN]. *)
Definition truthy (x : float) : bool := negb (is_zero x || is_nan x).

(** [ToBoolean] on a Number field that may be absent. *)
Definition truthy_opt (o : option float) : bool :=
  match o with
  | Some x => truthy x
  | None => false
  end.

(** [ToNumber]: an absent operand of an arithmetic operator or of a
    relational comparison is [NaN]. *)
Definition to_num (o : option float) : float :=
  match o with
  | Some x => x
  | None => nan
  end.

(** [o === k] for a possibly absent Number [o] and a Number [k]. *)
Definition strict_eq (o : option float) (k : float) : bool :=
  match o with
  | Some x => x =? k
  | None => false
  end.

(** [x > y] and [x >= y]. *)
Definition gtb (x y : float) : bool := y <? x.
Definition geb (x y : float) : bool := y <=? x.

(** [Math.min(x, y)]: [NaN] if either argument is [NaN]; [-0] is smaller
    than [+0]. *)
Definition Math_min (x y : float) : float :=
  if is_nan x || is_nan y then nan
  else if x <? y then x
  else if y <? x then y
  else match classify x with
       | NZero => x
       | _ => y
       end.

(** *** Order facts on the specification floats *)

Lemma SFcompare_antisym (x y : spec_float) :
  SFcompare y x = option_map CompOpp (SFcompare x y).
Proof.
  destruct x as [sx|sx| |sx mx ex], y as [sy|sy| |sy my ey]; simpl;
    try reflexivity;
    try (destruct sx; reflexivity); try (destruct sy; reflexivity);
    try (destruct sx, sy; reflexivity).
  destruct sx, sy; try reflexivity;
    rewrite (Z.compare_antisym ey ex);
    destruct (ey ?= ex)%Z; simpl; try reflexivity;
    pose proof (Pos.compare_cont_antisym mx my Eq) as H; simpl in H;
    rewrite <- H; destruct (Pos.compare_cont Eq mx my); reflexivity.
Qed.

Lemma SFcompare_refl (x : spec_float) :
  x <> S754_nan -> SFcompare x x = Some Eq.
Proof.
  destruct x as [s|s| |s m e]; simpl; intros H; try congruence.
  - destruct s; reflexivity.
  - rewrite Z.compare_refl, Pos.compare_cont_refl. destruct s; reflexivity.
Qed.

Lemma is_nan_spec (x : float) :
  is_nan x = match Prim2SF x with S754_nan => true | _ => false end.
Proof.
  unfold is_nan. rewrite FloatAxioms.eqb_spec. unfold SFeqb.
  destruct (Prim2SF x) eqn:E.
  - reflexivity.
  - rewrite SFcompare_refl by discriminate. reflexivity.
  - reflexivity.
  - rewrite SFcompare_refl by discriminate. reflexivity.
Qed.

(** A strictly positive Number is truthy. *)
Lemma pos_truthy (x : float) : (0 <? x) = true -> truthy x = true.
Proof.
  unfold truthy, is_zero. rewrite is_nan_spec.
  rewrite FloatAxioms.ltb_spec, FloatAxioms.eqb_spec.
  replace (Prim2SF 0) with (S754_zero false) by reflexivity.
  unfold SFltb, SFeqb.
  destruct (Prim2SF x) as [s|s| |s m e]; simpl; try discriminate;
    destruct s; try discriminate; reflexivity.
Qed.

Lemma pos_nonzero (x : float) : (0 <? x) = true -> (x =? 0) = false.
Proof.
  intros H. apply pos_truthy in H. unfold truthy in H.
  change (is_zero x = false).
  destruct (is_zero x); [discriminate H | reflexivity].
Qed.


Lemma ltb_leb (x y : float) : (x <? y) = true -> (x <=? y) = true.
Proof.
  rewrite FloatAxioms.ltb_spec, FloatAxioms.leb_spec. unfold SFltb, SFleb.
  destruct (SFcompare (Prim2SF x) (Prim2SF y)) as [[]|]; congruence.
Qed.

Lemma leb_refl (x : float) : is_nan x = false -> (x <=? x) = true.
Proof.
  rewrite is_nan_spec, FloatAxioms.leb_spec. unfold SFleb. intros H.
  rewrite SFcompare_refl; [reflexivity|].
  intros E. rewrite E in H. discriminate.
Qed.

Lemma not_ltb_leb (x y : float) :
  is_nan x = false -> is_nan y = false -> (y <? x) = false -> (x <=? y) = true.
Proof.
  rewrite !is_nan_spec, FloatAxioms.ltb_spec, FloatAxioms.leb_spec.
  unfold SFltb, SFleb. rewrite (SFcompare_antisym (Prim2SF x) (Prim2SF y)).
  destruct (Prim2SF x) as [sx|sx| |sx mx ex] eqn:Ex; try discriminate;
    destruct (Prim2SF y) as [sy|sy| |sy my ey] eqn:Ey; try discriminate;
    intros _ _;
    match goal with
    | |- context [SFcompare ?a ?b] =>
        destruct (SFcompare a b) as [[]|] eqn:Ec; simpl; try congruence
    end;
    simpl in Ec; try discriminate;
    repeat match type of Ec with
           | context [if ?s then _ else _] => destruct s
           end; discriminate.
Qed.

(** [Math.min] never exceeds its second argument. *)
Lemma Math_min_le_r (x y : float) :
  is_nan (Math_min x y) = false -> (Math_min x y <=? y) = true.
Proof.
  unfold Math_min.
  destruct (is_nan x) eqn:Nx; simpl; [intros H; discriminate H|].
  destruct (is_nan y) eqn:Ny; simpl; [intros H; discriminate H|].
  destruct (x <? y) eqn:Lxy; [intros _; now apply ltb_leb|].
  destruct (y <? x) eqn:Lyx; [intros _; now apply leb_refl|].
  intros _. destruct (classify x); try (now apply leb_refl);
    now apply not_ltb_leb.
Qed.

(** When the first argument has reached the second, the second is returned. *)
Lemma Math_min_clamp (x y : float) :
  is_nan y = false -> (y <? x) = true -> Math_min x y = y.
Proof.
  intros Ny L. unfold Math_min. rewrite Ny.
  assert (Nx : is_nan x = false).
  { rewrite is_nan_spec. rewrite FloatAxioms.ltb_spec in L. unfold SFltb in L.
    destruct (Prim2SF x); try reflexivity.
    destruct (Prim2SF y); discriminate. }
  rewrite Nx. simpl.
  assert (Lxy : (x <? y) = false).
  { rewrite FloatAxioms.ltb_spec in *. unfold SFltb in *.
    rewrite (SFcompare_antisym (Prim2SF y) (Prim2SF x)).
    destruct (SFcompare (Prim2SF y) (Prim2SF x)) as [[]|]; simpl; congruence. }
  rewrite Lxy, L. reflexivity.
Qed.
(** The same when the first argument equals the second, unless that is a
    zero (of a pair of zeros the negative one is returned). *)
Lemma Math_min_clamp_ge (x y : float) :
  is_nan y = false -> is_zero y = false -> (y <=? x) = true -> Math_min x y = y.
Proof.
  intros Ny Zy L.
  destruct (y <? x) eqn:Lyx; [now apply Math_min_clamp|].
  unfold Math_min. rewrite Ny, Lyx.
  unfold is_zero in Zy.
  rewrite FloatAxioms.classify_spec.
  rewrite is_nan_spec, FloatAxioms.ltb_spec.
  rewrite FloatAxioms.leb_spec in L. rewrite FloatAxioms.ltb_spec in Lyx.
  rewrite FloatAxioms.eqb_spec in Zy.
  replace (Prim2SF PrimFloat.zero) with (S754_zero false) in Zy by reflexivity.
  unfold SFleb, SFltb, SFeqb in *.
  rewrite (SFcompare_antisym (Prim2SF y) (Prim2SF x)).
  destruct (SFcompare (Prim2SF y) (Prim2SF x)) as [[]|] eqn:Ec;
    try discriminate.
  destruct (Prim2SF x) as [sx|sx| |sx mx ex];
    destruct (Prim2SF y) as [sy|sy| |sy my ey];
    simpl in *; try discriminate; try reflexivity;
    try (destruct sx; reflexivity);
    try (destruct sy; discriminate);
    destruct sx;
    match goal with
    | |- context [if ?b then _ else _] => destruct b
    end; reflexivity.
Qed.

(** *** Division by a zero-length difference *)

Lemma is_finite_spec (x : float) :
  is_finite x =
    match Prim2SF x with
    | S754_zero _ | S754_finite _ _ _ => true
    | _ => false
    end.
Proof.
  unfold is_finite, is_infinity. rewrite is_nan_spec.
  rewrite FloatAxioms.eqb_spec, FloatAxioms.abs_spec.
  replace (Prim2SF infinity) with (S754_infinity false) by reflexivity.
  destruct (Prim2SF x) as [s|s| |s m e]; reflexivity.
Qed.

(** [x - x] is [+0] for every finite [x]. *)
Lemma sub_diag (x : float) : is_finite x = true -> x - x = 0.
Proof.
  rewrite is_finite_spec. intros H. apply FloatAxioms.Prim2SF_inj.
  rewrite FloatAxioms.sub_spec.
  replace (Prim2SF 0) with (S754_zero false) by reflexivity.
  unfold FloatAxioms.SF64sub, SFsub.
  destruct (Prim2SF x) as [s|s| |s m e]; try discriminate.
  - destruct s; reflexivity.
  - cbv zeta. rewrite Z.sub_diag. reflexivity.
Qed.

(** Dividing by [+0] and comparing with a finite Number: the quotient is an
    infinity of the sign of the dividend, or [NaN] for [0 / 0] and
    [NaN / 0], so [r >= n / 0] holds exactly when [n] is negative. *)
Lemma geb_div_zero (r n : float) :
  is_finite r = true -> geb r (n / 0) = (n <? 0).
Proof.
  rewrite is_finite_spec. unfold geb.
  rewrite FloatAxioms.leb_spec, FloatAxioms.ltb_spec, FloatAxioms.div_spec.
  replace (Prim2SF 0) with (S754_zero false) by reflexivity.
  unfold FloatAxioms.SF64div, SFdiv, SFleb, SFltb.
  destruct (Prim2SF r) as [sr|sr| |sr mr er]; try discriminate; intros _;
    destruct (Prim2SF n) as [sn|sn| |sn mn en]; simpl;
    try reflexivity; destruct sn; reflexivity.
Qed.
End JS.

(** ** The Savings model (models/Savings.js) *)

Module Savings.
Import JS.
Local Open Scope float_scope.

(** The [period] and [goal] nested paths of the schema.  Dates are time
    values (milliseconds since the epoch). *)
Record Period := { startDate : float; endDate : float }.

Record Goal := {
  targetAmount : option float;
  targetDate : option float;
  isCompleted : bool;
  progress : float
}.

Record SavingsDoc := {
  user : ObjectId;
  amount : float;
  currency : string;
  type : string;
  category : string;
  date : float;
  period : Period;
  goal : Goal
}.

Definition set_goal (d : SavingsDoc) (g : Goal) : SavingsDoc :=
  {| user := user d; amount := amount d; currency := currency d;
     type := type d; category := category d; date := date d;
     period := period d; goal := g |}.

(** The virtual [goalProgressPercentage]:
    [if (!this.goal.targetAmount || this.goal.targetAmount === 0) return 0;
     return Math.min((this.amount / this.goal.targetAmount) * 100, 100);] *)
Definition goalProgressPercentage (d : SavingsDoc) : float :=
  let ta := targetAmount (goal d) in
  if negb (truthy_opt ta) || strict_eq ta 0 then 0
  else Math_min (amount d / to_num ta * 100) 100.

(** The method [updateGoalProgress]:
    [if (this.goal.targetAmount && this.goal.targetAmount > 0) {
       this.goal.progress = Math.min((this.amount / this.goal.targetAmount) * 100, 100);
       this.goal.isCompleted = this.goal.progress >= 100; }] *)
Definition updateGoalProgress (d : SavingsDoc) : SavingsDoc :=
  let g := goal d in
  if truthy_opt (targetAmount g) && gtb (to_num (targetAmount g)) 0 then
    let p := Math_min (amount d / to_num (targetAmount g) * 100) 100 in
    set_goal d {| targetAmount := targetAmount g; targetDate := targetDate g;
                  isCompleted := geb p 100; progress := p |}
  else d.

(** [savingsSchema.pre('save', function (next) { this.updateGoalProgress(); next(); })] *)
Definition preSave (d : SavingsDoc) : SavingsDoc := updateGoalProgress d.

(** [doc.save()]: the pre-save middleware runs, then the document is written
    to the collection under its [_id]; the saved document is returned. *)
Definition save (id : ObjectId) (d : SavingsDoc) (coll : gmap string SavingsDoc)
  : gmap string SavingsDoc * SavingsDoc :=
  let d' := preSave d in (<[id := d']> coll, d').

(** A document with the given amount and goal target, other paths at their
    schema defaults. *)
Definition sample (owner : ObjectId) (a : float) (t : option float) : SavingsDoc :=
  {| user := owner; amount := a; currency := "UGX"; type := "Goal";
     category := "General Savings"; date := 0;
     period := {| startDate := 0; endDate := 0 |};
     goal := {| targetAmount := t; targetDate := None;
                isCompleted := false; progress := 0 |} |}.

Example goalProgressPercentage_150_100 :
  goalProgressPercentage (sample "u" 150 (Some 100)) = 100.
Proof. reflexivity. Qed.

Example goalProgressPercentage_50_100 :
  goalProgressPercentage (sample "u" 50 (Some 100)) = 50.
Proof. reflexivity. Qed.

Example goalProgressPercentage_0_0 :
  goalProgressPercentage (sample "u" 0 (Some 0)) = 0.
Proof. reflexivity. Qed.

Example goalProgressPercentage_absent :
  goalProgressPercentage (sample "u" 70 None) = 0.
Proof. reflexivity. Qed.

(** C4: goalProgressPercentage is [min(amount/targetAmount*100, 100)] when
    targetAmount > 0 and 0 when targetAmount is absent or 0; the value never
    exceeds 100, and is exactly 100 once amount / targetAmount * 100 has
    reached 100. *)
Theorem goalProgressPercentage_spec (d : SavingsDoc) :
  (forall t, targetAmount (goal d) = Some t -> (0 <? t) = true ->
     goalProgressPercentage d = Math_min (amount d / t * 100) 100)
  /\ (targetAmount (goal d) = None \/ strict_eq (targetAmount (goal d)) 0 = true ->
      goalProgressPercentage d = 0)
  /\ (is_nan (goalProgressPercentage d) = false ->
      (goalProgressPercentage d <=? 100) = true)
  /\ (forall t, targetAmount (goal d) = Some t -> (0 <? t) = true ->
      (100 <=? amount d / t * 100) = true -> goalProgressPercentage d = 100).
Proof.
  assert (Hpos : forall t, targetAmount (goal d) = Some t -> (0 <? t) = true ->
            goalProgressPercentage d = Math_min (amount d / t * 100) 100).
  { intros t Ht Hp. unfold goalProgressPercentage. rewrite Ht. simpl.
    rewrite (pos_truthy t Hp). simpl.
    rewrite (pos_nonzero t Hp). reflexivity. }
  split; [exact Hpos|]. split; [|split].
  - unfold goalProgressPercentage. intros [-> | H]; [reflexivity|].
    rewrite H, orb_true_r. reflexivity.
  - unfold goalProgressPercentage.
    destruct (negb (truthy_opt (targetAmount (goal d)))
              || strict_eq (targetAmount (goal d)) 0); [reflexivity|].
    apply Math_min_le_r.
  - intros t Ht Hp Hover. rewrite (Hpos t Ht Hp).
    apply Math_min_clamp_ge; [reflexivity | reflexivity | exact Hover].
Qed.

(** Three sample points, obtained from the general statement. *)
Lemma goalProgressPercentage_spec_witness :
  goalProgressPercentage (sample "u" 150 (Some 100)) = 100
  /\ goalProgressPercentage (sample "u" 50 (Some 100)) = 50
  /\ goalProgressPercentage (sample "u" 0 (Some 0)) = 0.
Proof.
  split; [|split].
  - apply (proj2 (proj2 (proj2
             (goalProgressPercentage_spec (sample "u" 150 (Some 100))))) 100);
      reflexivity.
  - rewrite (proj1 (goalProgressPercentage_spec (sample "u" 50 (Some 100))) 100);
      reflexivity.
  - apply (proj1 (proj2 (goalProgressPercentage_spec (sample "u" 0 (Some 0)))));
      right; reflexivity.
Defined.

(** *** The pre-save recomputation *)

Lemma updateGoalProgress_pos (d : SavingsDoc) (t : float) :
  targetAmount (goal d) = Some t -> (0 <? t) = true ->
  updateGoalProgress d =
    set_goal d {| targetAmount := Some t; targetDate := targetDate (goal d);
                  isCompleted := geb (Math_min (amount d / t * 100) 100) 100;
                  progress := Math_min (amount d / t * 100) 100 |}.
Proof.
  intros Ht Hp. unfold updateGoalProgress. rewrite Ht. simpl.
  unfold gtb. rewrite (pos_truthy t Hp), Hp. reflexivity.
Qed.


Example save_50_of_200 :
  let d' := (save "s1" (sample "u" 50 (Some 200)) ∅).2 in
  progress (goal d') = 25 /\ isCompleted (goal d') = false.
Proof. split; reflexivity. Qed.

Example save_200_of_200 :
  let d' := (save "s1" (sample "u" 200 (Some 200)) ∅).2 in
  progress (goal d') = 100 /\ isCompleted (goal d') = true.
Proof. split; reflexivity. Qed.





End Savings.

(** ** HTTP replies *)

(** What a handler sends: [res.json({ success: true, data })], or
    [res.status(code).json({ message })].  The [errors] array that accompanies
    a 400 reply is not represented. *)
Inductive Reply (A : Type) : Type :=
| Success (data : A)
| Failure (code : Z) (message : string).
Arguments Success {A} data.
Arguments Failure {A} code message.

(** ** routes/savings.js: goals *)

Module SavingsGoals.
Import JS Savings.
Local Open Scope float_scope.

(** The [isOnTrack] property computed for a goal at time [now]
    ([Date.now()]):
    [goal.goal.targetDate ?
       (goal.amount / goal.goal.targetAmount) >=
         (Date.now() - new Date(goal.period.startDate).getTime()) /
         (new Date(goal.goal.targetDate).getTime() - new Date(goal.period.startDate).getTime())
       : true].
    A Date object is always truthy, so the test is on presence only. *)
Definition isOnTrack (now : float) (g : SavingsDoc) : bool :=
  match targetDate (goal g) with
  | Some td =>
      geb (amount g / to_num (targetAmount (goal g)))
          ((now - startDate (period g)) / (td - startDate (period g)))
  | None => true
  end.

(** One element of [goalsWithProgress]. *)
Record GoalView := {
  document : SavingsDoc;
  progressPercentage : float;
  remainingAmount : float;
  onTrack : bool
}.

Definition goalView (now : float) (g : SavingsDoc) : GoalView :=
  {| document := g;
     progressPercentage := goalProgressPercentage g;
     remainingAmount := to_num (targetAmount (goal g)) - amount g;
     onTrack := isOnTrack now g |}.

(** The filter [{ user, 'goal.targetAmount': { $exists: true, $gt: 0 } }]. *)
Definition hasGoalOf (uid : ObjectId) (d : SavingsDoc) : bool :=
  bool_decide (user d = uid)
  && match targetAmount (goal d) with
     | Some t => gtb t 0
     | None => false
     end.

(** [GET /api/savings/goals].  The reply lists the views of the caller's
    goals; the [sort({ 'goal.targetDate': 1 })] stage is not represented,
    the views are given by document id. *)
Definition getGoals (now : float) (uid : ObjectId)
    (coll : gmap string SavingsDoc) : Reply (gmap string GoalView) :=
  Success (goalView now <$> filter (fun kd => hasGoalOf uid kd.2 = true) coll).

(** Every view in the reply is the view of one of the caller's documents
    whose target amount is greater than 0. *)
Lemma getGoals_views (now : float) (uid : ObjectId)
    (coll : gmap string SavingsDoc) (views : gmap string GoalView)
    (k : string) (v : GoalView) :
  getGoals now uid coll = Success views -> views !! k = Some v ->
  exists d t, coll !! k = Some d /\ user d = uid
              /\ targetAmount (goal d) = Some t /\ (0 <? t) = true
              /\ v = goalView now d.
Proof.
  unfold getGoals. intros [= <-]. rewrite lookup_fmap.
  destruct (filter (fun kd => hasGoalOf uid kd.2 = true) coll !! k)
    as [d|] eqn:Hd; [|discriminate].
  intros [= <-].
  apply map_lookup_filter_Some in Hd as [Hk Hg]. simpl in Hg.
  unfold hasGoalOf in Hg. apply andb_prop in Hg as [Hu Ht].
  apply bool_decide_eq_true in Hu.
  destruct (targetAmount (goal d)) as [t|] eqn:Et; [|discriminate].
  exists d, t. repeat split; assumption.
Qed.

(** A goal of 100 started at [start] and due at [due], holding [a]. *)
Definition dated (a start due : float) : SavingsDoc :=
  {| user := "u"; amount := a; currency := "UGX"; type := "Goal";
     category := "Vacation"; date := start;
     period := {| startDate := start; endDate := due |};
     goal := {| targetAmount := Some 100; targetDate := Some due;
                isCompleted := false; progress := 0 |} |}.

Example isOnTrack_ahead : isOnTrack 400 (dated 50 0 1000) = true.
Proof. reflexivity. Qed.

Example isOnTrack_behind : isOnTrack 600 (dated 50 0 1000) = false.
Proof. reflexivity. Qed.

Example isOnTrack_no_deadline : isOnTrack 600 (sample "u" 50 (Some 100)) = true.
Proof. reflexivity. Qed.

(** Zero-length window, the deadline equal to the period start: the elapsed
    fraction is [+Infinity], [-Infinity] or [NaN] and the comparison still
    yields a boolean. *)
Example isOnTrack_zero_window_after : isOnTrack 2000 (dated 50 1000 1000) = false.
Proof. reflexivity. Qed.

Example isOnTrack_zero_window_at : isOnTrack 1000 (dated 50 1000 1000) = false.
Proof. reflexivity. Qed.

Example isOnTrack_zero_window_before : isOnTrack 500 (dated 50 1000 1000) = true.
Proof. reflexivity. Qed.

(** C6: isOnTrack is [true] when targetDate is absent and otherwise is the
    comparison amount/targetAmount >= (now - periodStart)/(targetDate -
    periodStart).  The comparison is total: in the zero-length window
    (targetDate equal to a finite periodStart, achieved fraction finite) the
    elapsed fraction is an infinity or NaN and the reply is the boolean
    [now - periodStart < 0], so the goal is reported off track from the start
    date onwards. *)
Theorem isOnTrack_spec (now : float) (g : SavingsDoc) :
  (targetDate (goal g) = None -> isOnTrack now g = true)
  /\ (forall td, targetDate (goal g) = Some td ->
      isOnTrack now g =
        geb (amount g / to_num (targetAmount (goal g)))
            ((now - startDate (period g)) / (td - startDate (period g))))
  /\ (forall td, targetDate (goal g) = Some td ->
      td = startDate (period g) -> is_finite td = true ->
      is_finite (amount g / to_num (targetAmount (goal g))) = true ->
      isOnTrack now g = (now - startDate (period g) <? 0))
  /\ onTrack (goalView now g) = isOnTrack now g.
Proof.
  split; [|split; [|split]].
  - unfold isOnTrack. intros ->. reflexivity.
  - unfold isOnTrack. intros td ->. reflexivity.
  - unfold isOnTrack. intros td -> <- Hfin Hr.
    rewrite (sub_diag td Hfin). now apply geb_div_zero.
  - reflexivity.
Qed.

(** The statement at a goal with no deadline, at a goal half-way through
    its window, and at a zero-length window after its start date. *)
Lemma isOnTrack_spec_witness :
  isOnTrack 600 (sample "u" 50 (Some 100)) = true
  /\ isOnTrack 400 (dated 50 0 1000) = true
  /\ isOnTrack 2000 (dated 50 1000 1000) = false.
Proof.
  split; [|split].
  - apply (proj1 (isOnTrack_spec 600 (sample "u" 50 (Some 100)))). reflexivity.
  - rewrite (proj1 (proj2 (isOnTrack_spec 400 (dated 50 0 1000))) 1000 eq_refl).
    reflexivity.
  - rewrite (proj1 (proj2 (proj2 (isOnTrack_spec 2000 (dated 50 1000 1000))))
               1000 eq_refl eq_refl eq_refl eq_refl).
    reflexivity.
Defined.
End SavingsGoals.

(** ** routes/savings.js: access to single records and bulk deletion *)

(** The usual shape of an ObjectId string: 24 hexadecimal digits. *)
Definition is_hex (c : ascii) : bool :=
  let n := nat_of_ascii c in
  ((48 <=? n) && (n <=? 57) || (97 <=? n) && (n <=? 102)
   || (65 <=? n) && (n <=? 70))%nat.

Definition hex24 (s : string) : bool :=
  (String.length s =? 24)%nat && forallb is_hex (list_ascii_of_string s).

Module SavingsRecords.
Import Savings.

(** *** Fetching one record *)

(** [Savings.findOne({ _id: id, user: uid })] for an [id] that casts. *)
Definition findOne (id uid : ObjectId) (coll : gmap string SavingsDoc)
  : option SavingsDoc :=
  match coll !! id with
  | Some d => if bool_decide (user d = uid) then Some d else None
  | None => None
  end.

Lemma findOne_Some (id uid : ObjectId) (coll : gmap string SavingsDoc) (d : SavingsDoc) :
  findOne id uid coll = Some d <-> coll !! id = Some d /\ user d = uid.
Proof.
  unfold findOne. destruct (coll !! id) as [d'|].
  - case_bool_decide as Hu; split.
    + intros [= ->]. tauto.
    + intros [[= ->] _]. reflexivity.
    + discriminate.
    + intros [[= ->] Hd]. contradiction.
  - split; [discriminate | intros [? _]; discriminate].
Qed.

Section ById.
(** Whether Mongoose can cast a string to an ObjectId; a filter holding a
    string that cannot be cast makes the query throw a CastError. *)
Variable castable : string -> bool.

(** [GET /api/savings/:id].  The [populate('user', ...)] decoration of the
    found document is not represented; the [catch] branch answers 500. *)
Definition getById (uid : ObjectId) (id : string)
    (coll : gmap string SavingsDoc) : Reply SavingsDoc :=
  if castable id then
    match findOne id uid coll with
    | Some d => Success d
    | None => Failure 404 "Savings entry not found"
    end
  else Failure 500 "Server error while fetching savings entry".

(** X6: the reply depends only on the caller's own documents. *)
Lemma getById_own_view (uid : ObjectId) (id : string) (coll : gmap string SavingsDoc) :
  getById uid id coll =
  getById uid id (filter (fun kd => user kd.2 = uid) coll).
Proof.
  unfold getById, findOne. destruct (castable id); [|reflexivity].
  rewrite map_lookup_filter.
  destruct (coll !! id) as [d|]; simpl; [|reflexivity].
  case_bool_decide as Hu.
  - rewrite option_guard_True by exact Hu. simpl.
    rewrite bool_decide_true by exact Hu. reflexivity.
  - rewrite option_guard_False by exact Hu. reflexivity.
Qed.

End ById.

(** *** Bulk deletion *)

(** The documents selected by [{ _id: { $in: ids }, user: uid }]. *)
Definition selected (ids : list string) (uid : ObjectId)
    (kd : string * SavingsDoc) : Prop :=
  kd.1 ∈ ids /\ user kd.2 = uid.

(** [Savings.deleteMany({ _id: { $in: ids }, user: uid })]: the collection
    without the selected documents, and [deletedCount]. *)
Definition deleteMany (ids : list string) (uid : ObjectId)
    (coll : gmap string SavingsDoc) : gmap string SavingsDoc * Z :=
  (filter (fun kd => ~ selected ids uid kd) coll,
   Z.of_nat (size (filter (selected ids uid) coll))).

Lemma deleteMany_lookup (ids : list string) (uid : ObjectId)
    (coll : gmap string SavingsDoc) (k : string) :
  (deleteMany ids uid coll).1 !! k =
    match coll !! k with
    | Some d => if bool_decide (k ∈ ids /\ user d = uid) then None else Some d
    | None => None
    end.
Proof.
  unfold deleteMany. simpl. rewrite map_lookup_filter.
  destruct (coll !! k) as [d|]; simpl; [|reflexivity].
  unfold selected. simpl. case_bool_decide as Hs.
  - rewrite option_guard_False by tauto. reflexivity.
  - rewrite option_guard_True by exact Hs. reflexivity.
Qed.



Section Bulk.
(** express-validator's [isMongoId]. *)
Variable isMongoId : string -> bool.

(** [DELETE /api/savings/bulk].  [body] is [req.body.savingsIds] when it is
    an array ([None] otherwise); the validators ask for an array of at
    least one element, each a Mongo id, so every element casts. *)
Definition bulkDelete (uid : ObjectId) (body : option (list string))
    (coll : gmap string SavingsDoc) : gmap string SavingsDoc * Reply Z :=
  match body with
  | Some ids =>
      if (1 <=? length ids)%nat && forallb isMongoId ids then
        let r := deleteMany ids uid coll in (r.1, Success r.2)
      else (coll, Failure 400 "Validation failed")
  | None => (coll, Failure 400 "Validation failed")
  end.
End Bulk.

(** A collection of four records: three of Alice's and one of Bob's. *)
Definition alice : ObjectId := "64a0000000000000000000a1".
Definition bob : ObjectId := "64b0000000000000000000b2".
Definition id1 : ObjectId := "650000000000000000000001".
Definition id2 : ObjectId := "650000000000000000000002".
Definition id3 : ObjectId := "650000000000000000000003".
Definition id4 : ObjectId := "650000000000000000000004".

Definition demo : gmap string SavingsDoc :=
  <[id1 := sample alice 10 None]>
    (<[id2 := sample bob 20 None]>
       (<[id3 := sample alice 30 None]>
          (<[id4 := sample alice 40 None]> ∅))).

Example getById_own : getById hex24 alice id1 demo = Success (sample alice 10 None).
Proof. vm_compute. reflexivity. Qed.

Example getById_malformed :
  getById hex24 alice "goals" demo =
  Failure 500 "Server error while fetching savings entry".
Proof. vm_compute. reflexivity. Qed.


End SavingsRecords.

(** ** routes/savings.js and routes/expense.js: listing with filters *)

Module Listing.
Import JS.

(** *** Mongo filters *)

Inductive Value : Type :=
| VId (i : ObjectId)
| VStr (s : string)
| VNum (x : float)
| VDate (t : float).

(** A clause of a filter object: a plain value (equality), or an object of
    comparison operators such as [{ $gte: a, $lte: b }]. *)
Inductive Clause : Type :=
| Equals (v : Value)
| Range (ops : gmap string Value).

(** [ToBoolean] on a query-string parameter: [undefined] and the empty string
    are falsy, every other string (["0"] included) is truthy. *)
Definition truthy_str (s : string) : bool := negb (String.eqb s "").

Example truthy_str_zero : truthy_str "0" = true.
Proof. reflexivity. Qed.

Example truthy_str_empty : truthy_str "" = false.
Proof. reflexivity. Qed.

Definition supplied_truthy (o : option string) : bool :=
  match o with
  | Some s => truthy_str s
  | None => false
  end.

(** [if (p) obj[op] = conv(p);] *)
Definition set_if (op : string) (conv : string -> Value) (o : option string)
    (obj : gmap string Value) : gmap string Value :=
  match o with
  | Some s => if truthy_str s then <[op := conv s]> obj else obj
  | None => obj
  end.

(** [if (lo || hi) { query[field] = {}; if (lo) query[field].$gte = conv(lo);
    if (hi) query[field].$lte = conv(hi); }] *)
Definition set_range (field : string) (conv : string -> Value)
    (lo hi : option string) (query : gmap string Clause) : gmap string Clause :=
  if supplied_truthy lo || supplied_truthy hi then
    <[field := Range (set_if "$lte" conv hi (set_if "$gte" conv lo ∅))]> query
  else query.

(** [if (p) query[field] = p;] *)
Definition set_equals (field : string) (o : option string)
    (query : gmap string Clause) : gmap string Clause :=
  match o with
  | Some s => if truthy_str s then <[field := Equals (VStr s)]> query else query
  | None => query
  end.

(** The destructured [req.query] of the two listing routes; a parameter that
    the route does not read stays [None].  Each parameter is a single string
    when it is present. *)
Record Criteria := {
  page : option string;
  limit : option string;
  startDate : option string;
  endDate : option string;
  type : option string;
  category : option string;
  minAmount : option string;
  maxAmount : option string;
  paymentMethod : option string;
  sortBy : option string;
  sortOrder : option string
}.

Section Build.
(** [new Date(s).getTime()] and [parseFloat(s)]. *)
Variable newDate : string -> float.
Variable parseFloat : string -> float.

(** The filter of [GET /api/savings]: owner, date range, type, category,
    amount range. *)
Definition savingsQuery (uid : ObjectId) (c : Criteria) : gmap string Clause :=
  set_range "amount" (fun s => VNum (parseFloat s)) (minAmount c) (maxAmount c)
    (set_equals "category" (category c)
       (set_equals "type" (type c)
          (set_range "date" (fun s => VDate (newDate s)) (startDate c) (endDate c)
             {[ "user" := Equals (VId uid) ]}))).

(** The filter of [GET /api/expenses]: owner, date range, category, amount
    range, payment method. *)
Definition expenseQuery (uid : ObjectId) (c : Criteria) : gmap string Clause :=
  set_equals "paymentMethod" (paymentMethod c)
    (set_range "amount" (fun s => VNum (parseFloat s)) (minAmount c) (maxAmount c)
       (set_equals "category" (category c)
          (set_range "date" (fun s => VDate (newDate s)) (startDate c) (endDate c)
             {[ "user" := Equals (VId uid) ]}))).
End Build.

(** *** Validation chains of the listing routes *)

Section Validation.
(** express-validator's [isInt({ min: 1 })], [isInt({ min: 1, max: 100 })],
    [isISO8601()] and [isFloat({ min: 0 })]. *)
Variable isPage : string -> bool.
Variable isLimit : string -> bool.
Variable isISO8601 : string -> bool.
Variable isAmount : string -> bool.

(** [.optional()]: only an absent parameter escapes the check. *)
Definition optional (check : string -> bool) (o : option string) : bool :=
  match o with
  | Some s => check s
  | None => true
  end.

Definition isIn (allowed : list string) (s : string) : bool :=
  bool_decide (s ∈ allowed).

(** [validationResult(req).isEmpty()] for [GET /api/savings].  The [isString]
    checks on [type] and [category] hold of every single string. *)
Definition savingsValid (c : Criteria) : bool :=
  optional isPage (page c) && optional isLimit (limit c)
  && optional isISO8601 (startDate c) && optional isISO8601 (endDate c)
  && optional isAmount (minAmount c) && optional isAmount (maxAmount c)
  && optional (isIn ["date"; "amount"; "type"; "category"; "createdAt"]) (sortBy c)
  && optional (isIn ["asc"; "desc"]) (sortOrder c).

(** [validationResult(req).isEmpty()] for [GET /api/expenses]. *)
Definition expenseValid (c : Criteria) : bool :=
  optional isPage (page c) && optional isLimit (limit c)
  && optional isISO8601 (startDate c) && optional isISO8601 (endDate c)
  && optional isAmount (minAmount c) && optional isAmount (maxAmount c)
  && optional (isIn ["date"; "amount"; "category"; "createdAt"]) (sortBy c)
  && optional (isIn ["asc"; "desc"]) (sortOrder c).
End Validation.
(** *** Pagination *)

Record Pagination := {
  currentPage : Z;
  totalPages : Z;
  totalItems : Z;
  itemsPerPage : Z;
  hasNextPage : bool;
  hasPrevPage : bool
}.

(** [Math.ceil] of a quotient of two counts. *)
Definition Math_ceil (q : Q) : Z := Qceiling q.

(** [const skip = (parseInt(page) - 1) * parseInt(limit);] *)
Definition skipOf (page limit : Z) : Z := ((page - 1) * limit)%Z.

(** [const totalPages = Math.ceil(total / parseInt(limit));] and the
    [pagination] object of the reply. *)
Definition paginate (page limit total : Z) : Pagination :=
  let pages := Math_ceil (inject_Z total / inject_Z limit)%Q in
  {| currentPage := page;
     totalPages := pages;
     totalItems := total;
     itemsPerPage := limit;
     hasNextPage := (page <? pages)%Z;
     hasPrevPage := (1 <? page)%Z |}.


(** *** Evaluating a filter on a savings document *)

Definition fieldOf (name : string) (d : Savings.SavingsDoc) : option Value :=
  if String.eqb name "user" then Some (VId (Savings.user d))
  else if String.eqb name "date" then Some (VDate (Savings.date d))
  else if String.eqb name "type" then Some (VStr (Savings.type d))
  else if String.eqb name "category" then Some (VStr (Savings.category d))
  else if String.eqb name "amount" then Some (VNum (Savings.amount d))
  else None.

Definition value_eqb (v w : Value) : bool :=
  match v, w with
  | VId a, VId b | VStr a, VStr b => String.eqb a b
  | VNum x, VNum y | VDate x, VDate y => PrimFloat.eqb x y
  | _, _ => false
  end.

(** [v >= b] on two numbers or two dates. *)
Definition value_geb (v b : Value) : bool :=
  match v, b with
  | VNum x, VNum y | VDate x, VDate y => geb x y
  | _, _ => false
  end.

Definition sat (c : Clause) (v : Value) : bool :=
  match c with
  | Equals w => value_eqb v w
  | Range ops =>
      match ops !! "$gte" with Some b => value_geb v b | None => true end
      && match ops !! "$lte" with Some b => value_geb b v | None => true end
  end.

(** A document matches a filter when each clause holds of the field it names. *)
Definition matches (query : gmap string Clause) (d : Savings.SavingsDoc) : bool :=
  bool_decide
    (map_Forall (fun k c => from_option (sat c) false (fieldOf k d) = true) query).

(** [Savings.countDocuments(query)]. *)
Definition countDocuments (query : gmap string Clause)
    (coll : gmap string Savings.SavingsDoc) : Z :=
  Z.of_nat (size (filter (fun kd => matches query kd.2 = true) coll)).

(** *** The listing handler *)

(** What the handler asks of the store and what it reports: the filter, the
    sort key and direction, the window, and the pagination object.  The page
    of documents itself ([data]) is not represented. *)
Record ListReply := {
  query : gmap string Clause;
  sort : string * Z;
  skip : Z;
  window : Z;
  pagination : Pagination
}.

Section Handler.
Variable newDate : string -> float.
Variable parseFloat : string -> float.
Variable parseInt : string -> Z.
Variable isPage : string -> bool.
Variable isLimit : string -> bool.
Variable isISO8601 : string -> bool.
Variable isAmount : string -> bool.

(** [page = 1] and [limit = 20] when the parameter is absent. *)
Definition pageOf (c : Criteria) : Z :=
  match page c with Some s => parseInt s | None => 1%Z end.

Definition limitOf (c : Criteria) : Z :=
  match limit c with Some s => parseInt s | None => 20%Z end.

(** [sort[sortBy] = sortOrder === 'asc' ? 1 : -1], with [sortBy = 'date'] and
    [sortOrder = 'desc'] by default. *)
Definition sortOf (c : Criteria) : string * Z :=
  (default "date" (sortBy c),
   if bool_decide (default "desc" (sortOrder c) = "asc") then 1%Z else (-1)%Z).

(** [GET /api/savings]. *)
Definition listSavings (uid : ObjectId) (c : Criteria)
    (coll : gmap string Savings.SavingsDoc) : Reply ListReply :=
  if savingsValid isPage isLimit isISO8601 isAmount c then
    let q := savingsQuery newDate parseFloat uid c in
    Success {| query := q;
               sort := sortOf c;
               skip := skipOf (pageOf c) (limitOf c);
               window := limitOf c;
               pagination := paginate (pageOf c) (limitOf c) (countDocuments q coll) |}
  else Failure 400 "Validation failed".
End Handler.

(** *** Pagination arithmetic *)






(** *** The clauses of a built filter *)

Lemma lookup_set_equals_ne (f k : string) (o : option string) (q : gmap string Clause) :
  k <> f -> set_equals f o q !! k = q !! k.
Proof.
  intros Hne. unfold set_equals. destruct o as [s|]; [|reflexivity].
  destruct (truthy_str s); [|reflexivity].
  apply lookup_insert_ne. congruence.
Qed.

Lemma lookup_set_range_ne (f k : string) (conv : string -> Value)
    (lo hi : option string) (q : gmap string Clause) :
  k <> f -> set_range f conv lo hi q !! k = q !! k.
Proof.
  intros Hne. unfold set_range.
  destruct (supplied_truthy lo || supplied_truthy hi); [|reflexivity].
  apply lookup_insert_ne. congruence.
Qed.

Lemma lookup_set_range_eq (f : string) (conv : string -> Value)
    (lo hi : option string) (q : gmap string Clause) :
  set_range f conv lo hi q !! f =
    if supplied_truthy lo || supplied_truthy hi
    then Some (Range (set_if "$lte" conv hi (set_if "$gte" conv lo ∅)))
    else q !! f.
Proof.
  unfold set_range.
  destruct (supplied_truthy lo || supplied_truthy hi); [|reflexivity].
  apply lookup_insert_eq.
Qed.

Lemma lookup_set_if (op k : string) (conv : string -> Value) (o : option string)
    (obj : gmap string Value) :
  set_if op conv o obj !! k =
    if bool_decide (k = op) && supplied_truthy o then conv <$> o else obj !! k.
Proof.
  unfold set_if. destruct o as [s|]; simpl.
  - destruct (truthy_str s).
    + case_bool_decide as Hk; simpl.
      * subst k. apply lookup_insert_eq.
      * apply lookup_insert_ne. congruence.
    + rewrite andb_false_r. reflexivity.
  - rewrite andb_false_r. reflexivity.
Qed.

(** A parameter that passed a check rejecting the empty string is truthy
    exactly when it was supplied. *)
Lemma optional_truthy (check : string -> bool) (o : option string) :
  check "" = false -> optional check o = true ->
  supplied_truthy o = bool_decide (is_Some o).
Proof.
  intros Hempty Hv. destruct o as [s|]; simpl in *; [|reflexivity].
  unfold truthy_str. destruct (String.eqb_spec s ""); [congruence | reflexivity].
Qed.

(** The operator object of a range clause, for bounds that passed such a
    check: [$gte] holds the lower bound if one was supplied, [$lte] the upper
    bound if one was supplied, and there is no other operator. *)
Lemma bounds_lookup (check : string -> bool) (conv : string -> Value)
    (lo hi : option string) :
  check "" = false -> optional check lo = true -> optional check hi = true ->
  set_if "$lte" conv hi (set_if "$gte" conv lo ∅) !! "$gte" = conv <$> lo
  /\ set_if "$lte" conv hi (set_if "$gte" conv lo ∅) !! "$lte" = conv <$> hi
  /\ (forall k, k <> "$gte" -> k <> "$lte" ->
      set_if "$lte" conv hi (set_if "$gte" conv lo ∅) !! k = None).
Proof.
  intros He Hlo Hhi.
  pose proof (optional_truthy check lo He Hlo) as Tlo.
  pose proof (optional_truthy check hi He Hhi) as Thi.
  split; [|split].
  - rewrite !lookup_set_if, Tlo. simpl.
    destruct lo; [rewrite bool_decide_true by eauto; reflexivity|].
    rewrite bool_decide_false by (intros [? ?]; discriminate). reflexivity.
  - rewrite !lookup_set_if, Thi. simpl.
    destruct hi; [rewrite bool_decide_true by eauto; reflexivity|].
    rewrite bool_decide_false by (intros [? ?]; discriminate). reflexivity.
  - intros k H1 H2. rewrite !lookup_set_if.
    rewrite !bool_decide_false by assumption. reflexivity.
Qed.

(** What the specification asks of a built filter [q]: the owner clause is
    there; a date (amount) clause is there exactly when a date (amount) bound
    was supplied; and the clause holds the supplied bounds and nothing else. *)
Definition range_clause (conv : string -> Value) (lo hi : option string)
    (cl : option Clause) : Prop :=
  (is_Some cl <-> is_Some lo \/ is_Some hi)
  /\ (forall c, cl = Some c ->
      exists ops, c = Range ops
        /\ ops !! "$gte" = conv <$> lo
        /\ ops !! "$lte" = conv <$> hi
        /\ (forall k, k <> "$gte" -> k <> "$lte" -> ops !! k = None)).

Definition owner_and_bounds (newDate parseFloat : string -> float)
    (uid : ObjectId) (c : Criteria) (q : gmap string Clause) : Prop :=
  q !! "user" = Some (Equals (VId uid))
  /\ range_clause (fun s => VDate (newDate s)) (startDate c) (endDate c) (q !! "date")
  /\ range_clause (fun s => VNum (parseFloat s)) (minAmount c) (maxAmount c)
       (q !! "amount").

Lemma range_clause_built (check : string -> bool) (conv : string -> Value)
    (lo hi : option string) (f : string) (q : gmap string Clause) :
  check "" = false -> optional check lo = true -> optional check hi = true ->
  q !! f = None ->
  range_clause conv lo hi (set_range f conv lo hi q !! f).
Proof.
  intros He Hlo Hhi Hq. rewrite lookup_set_range_eq, Hq.
  rewrite (optional_truthy check lo He Hlo), (optional_truthy check hi He Hhi).
  destruct (bounds_lookup check conv lo hi He Hlo Hhi) as (Hg & Hl & Hn).
  unfold range_clause.
  destruct lo as [l|], hi as [h|]; simpl;
    repeat (rewrite bool_decide_true by eauto);
    repeat (rewrite bool_decide_false by (intros [? ?]; discriminate)); simpl.
  1-3: split; [split; eauto|];
       intros c [= <-]; eexists; split; [reflexivity|]; repeat split; assumption.
  split.
  - split; [intros [? ?]; discriminate | intros [[? ?]|[? ?]]; discriminate].
  - intros c Hc. discriminate.
Qed.

(** With only a lower bound the clause is exactly [{ $gte: lo }], with only
    an upper bound exactly [{ $lte: hi }], with both [{ $gte: lo, $lte: hi }],
    and with neither there is no clause. *)
Lemma range_clause_shape (conv : string -> Value) (lo hi : option string)
    (cl : option Clause) :
  range_clause conv lo hi cl ->
  cl = match lo, hi with
       | Some l, Some h => Some (Range (<["$lte" := conv h]> {[ "$gte" := conv l ]}))
       | Some l, None => Some (Range {[ "$gte" := conv l ]})
       | None, Some h => Some (Range {[ "$lte" := conv h ]})
       | None, None => None
       end.
Proof.
  intros [Hiff Hops].
  destruct cl as [c|].
  - destruct (Hops c eq_refl) as (ops & -> & Hg & Hl & Hn).
    assert (Hsome : is_Some lo \/ is_Some hi) by (apply Hiff; eauto).
    destruct lo as [l|], hi as [h|]; simpl in *;
      try (destruct Hsome as [[? ?]|[? ?]]; discriminate);
      do 2 f_equal; apply map_eq; intros k;
      destruct (decide (k = "$gte")) as [->|Hk1];
      try (destruct (decide (k = "$lte")) as [->|Hk2]);
      rewrite ?Hg, ?Hl, ?Hn by assumption;
      try reflexivity;
      rewrite ?lookup_insert_ne, ?lookup_singleton_ne by congruence;
      reflexivity.
  - destruct lo as [l|], hi as [h|]; try reflexivity;
      assert (Hs : is_Some (@None Clause)) by (apply Hiff; eauto);
      destruct Hs as [? ?]; discriminate.
Qed.

(** C1: for every combination of criteria that passes the route's validation
    chain, the filter built by the savings listing, and the one built by the
    expenses listing, holds the owner-equality clause, holds a date clause
    exactly when a date bound was supplied and an amount clause exactly when
    an amount bound was supplied (any supplied bound counts, ["0"] included),
    and each range clause carries the supplied bounds only.  The validators
    are those of express-validator; they reject the empty string. *)
Theorem filter_clauses
    (newDate parseFloat : string -> float)
    (isPage isLimit isISO8601 isAmount : string -> bool)
    (uid : ObjectId) (c : Criteria) :
  isISO8601 "" = false -> isAmount "" = false ->
  (savingsValid isPage isLimit isISO8601 isAmount c = true ->
   owner_and_bounds newDate parseFloat uid c (savingsQuery newDate parseFloat uid c))
  /\ (expenseValid isPage isLimit isISO8601 isAmount c = true ->
      owner_and_bounds newDate parseFloat uid c (expenseQuery newDate parseFloat uid c)).
Proof.
  intros Hiso Hamt. split; intros Hv.
  - unfold savingsValid in Hv. repeat (apply andb_prop in Hv as [Hv ?]).
    unfold owner_and_bounds, savingsQuery. split; [|split].
    + rewrite lookup_set_range_ne, !lookup_set_equals_ne, lookup_set_range_ne
        by discriminate.
      apply lookup_singleton_eq.
    + rewrite lookup_set_range_ne, !lookup_set_equals_ne by discriminate.
      apply (range_clause_built isISO8601); try assumption.
      apply lookup_singleton_ne. discriminate.
    + apply (range_clause_built isAmount); try assumption.
      rewrite !lookup_set_equals_ne, lookup_set_range_ne by discriminate.
      apply lookup_singleton_ne. discriminate.
  - unfold expenseValid in Hv. repeat (apply andb_prop in Hv as [Hv ?]).
    unfold owner_and_bounds, expenseQuery. split; [|split].
    + rewrite lookup_set_equals_ne, lookup_set_range_ne, lookup_set_equals_ne,
        lookup_set_range_ne by discriminate.
      apply lookup_singleton_eq.
    + rewrite lookup_set_equals_ne, lookup_set_range_ne, lookup_set_equals_ne
        by discriminate.
      apply (range_clause_built isISO8601); try assumption.
      apply lookup_singleton_ne. discriminate.
    + rewrite lookup_set_equals_ne by discriminate.
      apply (range_clause_built isAmount); try assumption.
      rewrite lookup_set_equals_ne, lookup_set_range_ne by discriminate.
      apply lookup_singleton_ne. discriminate.
Qed.

(** The reply of the savings listing carries the filter, window and
    pagination computed above. *)
Lemma listSavings_reply
    (newDate parseFloat : string -> float) (parseInt : string -> Z)
    (isPage isLimit isISO8601 isAmount : string -> bool)
    (uid : ObjectId) (c : Criteria) (coll : gmap string Savings.SavingsDoc)
    (r : ListReply) :
  listSavings newDate parseFloat parseInt isPage isLimit isISO8601 isAmount
    uid c coll = Success r ->
  savingsValid isPage isLimit isISO8601 isAmount c = true
  /\ query r = savingsQuery newDate parseFloat uid c
  /\ skip r = skipOf (pageOf parseInt c) (limitOf parseInt c)
  /\ pagination r =
     paginate (pageOf parseInt c) (limitOf parseInt c)
       (countDocuments (query r) coll).
Proof.
  unfold listSavings.
  destruct (savingsValid isPage isLimit isISO8601 isAmount c); [|discriminate].
  intros [= <-]. simpl. repeat split.
Qed.

(** A filter holding the owner clause selects the owner's documents only. *)
Lemma matches_owner (q : gmap string Clause) (uid : ObjectId)
    (d : Savings.SavingsDoc) :
  q !! "user" = Some (Equals (VId uid)) -> matches q d = true ->
  Savings.user d = uid.
Proof.
  intros Hq Hm. unfold matches in Hm. apply bool_decide_eq_true in Hm.
  specialize (Hm "user" _ Hq). simpl in Hm.
  apply String.eqb_eq in Hm. exact Hm.
Qed.

(** *** Sample validators and converters *)

(** Stand-ins used to run the handlers on sample requests: digit strings for
    counts and amounts, [YYYY-MM-DD] for dates. *)
Definition is_digit (c : ascii) : bool :=
  let n := nat_of_ascii c in ((48 <=? n) && (n <=? 57))%nat.

Definition all_digits (s : string) : bool :=
  negb (String.eqb s "") && forallb is_digit (list_ascii_of_string s).

Definition digits_value (s : string) : Z :=
  fold_left (fun acc c => (10 * acc + (Z.of_nat (nat_of_ascii c) - 48))%Z)
    (list_ascii_of_string s) 0%Z.

Definition sampleInt (lo hi : Z) (s : string) : bool :=
  all_digits s && (lo <=? digits_value s)%Z && (digits_value s <=? hi)%Z.

Definition sampleDay (s : string) : bool :=
  match list_ascii_of_string s with
  | [y1; y2; y3; y4; d1; m1; m2; d2; a1; a2] =>
      forallb is_digit [y1; y2; y3; y4; m1; m2; a1; a2]
      && Ascii.eqb d1 "-" && Ascii.eqb d2 "-"
  | _ => false
  end.

Definition sampleFloat (s : string) : float :=
  PrimFloat.of_uint63 (Uint63.of_Z (digits_value s)).

(** Midnight UTC of the first and last day of 2024; other strings are left
    as invalid dates. *)
Definition sampleDate (s : string) : float :=
  if String.eqb s "2024-01-01" then 1704067200000%float
  else if String.eqb s "2024-12-31" then 1735603200000%float
  else nan.

Definition no_criteria : Criteria :=
  {| page := None; limit := None; startDate := None; endDate := None;
     type := None; category := None; minAmount := None; maxAmount := None;
     paymentMethod := None; sortBy := None; sortOrder := None |}.

(** [?minAmount=0] *)
Definition min_zero : Criteria :=
  {| page := None; limit := None; startDate := None; endDate := None;
     type := None; category := None; minAmount := Some "0"; maxAmount := None;
     paymentMethod := None; sortBy := None; sortOrder := None |}.

(** [?startDate=2024-01-01&endDate=2024-12-31&maxAmount=500&paymentMethod=Cash] *)
Definition year_2024 : Criteria :=
  {| page := None; limit := None;
     startDate := Some "2024-01-01"; endDate := Some "2024-12-31";
     type := None; category := None; minAmount := None; maxAmount := Some "500";
     paymentMethod := Some "Cash"; sortBy := None; sortOrder := None |}.

(** [?minAmount=] *)
Definition min_empty : Criteria :=
  {| page := None; limit := None; startDate := None; endDate := None;
     type := None; category := None; minAmount := Some ""; maxAmount := None;
     paymentMethod := None; sortBy := None; sortOrder := None |}.

(** An empty bound does not reach the filter build: the request is refused. *)
Example listSavings_empty_bound :
  listSavings sampleDate sampleFloat digits_value
    (sampleInt 1 1000000) (sampleInt 1 100) sampleDay all_digits
    "u1" min_empty ∅
  = Failure 400 "Validation failed".
Proof. reflexivity. Qed.

(** A bound of 0 does, and the reply for an empty collection has no pages. *)
Example listSavings_zero_bound :
  listSavings sampleDate sampleFloat digits_value
    (sampleInt 1 1000000) (sampleInt 1 100) sampleDay all_digits
    "u1" min_zero ∅
  = Success {| query := <["amount" := Range {[ "$gte" := VNum 0 ]}]>
                          {[ "user" := Equals (VId "u1") ]};
               sort := ("date", (-1)%Z);
               skip := 0;
               window := 20;
               pagination := {| currentPage := 1; totalPages := 0;
                                totalItems := 0; itemsPerPage := 20;
                                hasNextPage := false; hasPrevPage := false |} |}.
Proof. vm_compute. reflexivity. Qed.

(** The filters built for three requests: a lower amount bound of 0 gives
    [{ user, amount: { $gte: 0 } }]; no criteria give [{ user }] alone; a full
    date range with an upper amount bound gives a two-sided date clause and a
    one-sided amount clause. *)
Lemma filter_clauses_witness :
  (savingsQuery sampleDate sampleFloat "u1" min_zero !! "user"
     = Some (Equals (VId "u1"))
   /\ savingsQuery sampleDate sampleFloat "u1" min_zero !! "amount"
      = Some (Range {[ "$gte" := VNum 0 ]})
   /\ savingsQuery sampleDate sampleFloat "u1" min_zero !! "date" = None)
  /\ (savingsQuery sampleDate sampleFloat "u1" no_criteria !! "user"
        = Some (Equals (VId "u1"))
      /\ savingsQuery sampleDate sampleFloat "u1" no_criteria !! "amount" = None
      /\ savingsQuery sampleDate sampleFloat "u1" no_criteria !! "date" = None)
  /\ (expenseQuery sampleDate sampleFloat "u1" year_2024 !! "user"
        = Some (Equals (VId "u1"))
      /\ expenseQuery sampleDate sampleFloat "u1" year_2024 !! "amount"
         = Some (Range {[ "$lte" := VNum 500 ]})
      /\ expenseQuery sampleDate sampleFloat "u1" year_2024 !! "date"
         = Some (Range (<["$lte" := VDate 1735603200000]>
                          {[ "$gte" := VDate 1704067200000 ]}))).
Proof.
  split; [|split].
  - destruct (proj1 (filter_clauses sampleDate sampleFloat
                       (sampleInt 1 1000000) (sampleInt 1 100) sampleDay all_digits
                       "u1" min_zero eq_refl eq_refl) eq_refl)
      as (Hu & Hd & Ha).
    apply range_clause_shape in Hd, Ha.
    split; [exact Hu|]. split; [exact Ha | exact Hd].
  - destruct (proj1 (filter_clauses sampleDate sampleFloat
                       (sampleInt 1 1000000) (sampleInt 1 100) sampleDay all_digits
                       "u1" no_criteria eq_refl eq_refl) eq_refl)
      as (Hu & Hd & Ha).
    apply range_clause_shape in Hd, Ha.
    split; [exact Hu|]. split; [exact Ha | exact Hd].
  - destruct (proj2 (filter_clauses sampleDate sampleFloat
                       (sampleInt 1 1000000) (sampleInt 1 100) sampleDay all_digits
                       "u1" year_2024 eq_refl eq_refl) eq_refl)
      as (Hu & Hd & Ha).
    apply range_clause_shape in Hd, Ha.
    split; [exact Hu|]. split; [exact Ha | exact Hd].
Defined.
End Listing.

(** ** routes/analytics.js: pie charts *)

Module PieChart.
Import JS.
Local Open Scope float_scope.

(** A reply field that is a Number on one branch and a String on the other. *)
Inductive Json : Type :=
| JNum (x : float)
| JStr (s : string).

(** *** [Number.prototype.toFixed(2)] *)

(** The integer [n] for which [n / 100] is closest to [m * 2 ^ e]; of two
    equally close ones, the larger. *)
Definition hundredths (m : positive) (e : Z) : Z :=
  match e with
  | Zneg k => ((200 * Zpos m + 2 ^ Zpos k) / 2 ^ (Zpos k + 1))%Z
  | _ => (100 * Zpos m * 2 ^ e)%Z
  end.

(** The digits of [n], padded on the left with zeros to three digits at
    least, with a point before the last two. *)
Definition fixed_digits (n : Z) : string :=
  let m := NilZero.string_of_uint (N.to_uint (Z.to_N n)) in
  let k := String.length m in
  let m := if (k <=? 2)%nat then String.append (string_of_list_ascii (repeat "0"%char (3 - k))) m else m in
  let k := String.length m in
  String.append (String.substring 0 (k - 2) m)
    (String.append "." (String.substring (k - 2) 2 m)).

Section ToFixed.
(** [String(x)] for a finite [x >= 1e21], which [toFixed] falls back to. *)
Variable bigToString : float -> string.

Definition toFixed2 (x : float) : string :=
  match Prim2SF x with
  | S754_nan => "NaN"
  | S754_infinity s => if s then "-Infinity" else "Infinity"
  | S754_zero _ => fixed_digits 0
  | S754_finite s m e =>
      String.append (if s then "-" else "")
        (if 1e21 <=? abs x then bigToString (abs x)
         else fixed_digits (hundredths m e))
  end.

(** [grand > 0 ? ((total / grand) * 100).toFixed(2) : 0], the [percentage]
    of a slice of either pie chart, and likewise [savingsRate]. *)
Definition percentage (total grand : float) : Json :=
  if gtb grand 0 then JStr (toFixed2 (total / grand * 100)) else JNum 0.

(** A row of the grouped aggregation, and the slice made of it.  The [color]
    of a slice is not represented. *)
Record Row := { _id : string; total : float; count : Z; average : float }.

Record Slice := {
  key : string;
  amount : float;
  slice_count : Z;
  slice_average : float;
  slice_percentage : Json
}.

(** [pieChartData.reduce((sum, item) => sum + item.total, 0)] *)
Definition grandTotal (rows : list Row) : float :=
  fold_left (fun sum item => sum + total item) rows 0.

Definition formatPie (rows : list Row) : list Slice :=
  map (fun item =>
         {| key := _id item; amount := total item; slice_count := count item;
            slice_average := average item;
            slice_percentage := percentage (total item) (grandTotal rows) |})
      rows.
End ToFixed.



Example percentage_50_200 (big : float -> string) :
  percentage big 50 200 = JStr "25.00".
Proof. reflexivity. Qed.

Example percentage_1_3 (big : float -> string) :
  percentage big 1 3 = JStr "33.33".
Proof. reflexivity. Qed.

Example percentage_2_3 (big : float -> string) :
  percentage big 2 3 = JStr "66.67".
Proof. reflexivity. Qed.

Example percentage_7_0 (big : float -> string) : percentage big 7 0 = JNum 0.
Proof. reflexivity. Qed.

Example formatPie_sample (big : float -> string) :
  map slice_percentage
    (formatPie big [ {| _id := "Housing"; total := 150; count := 1; average := 150 |};
                     {| _id := "Travel"; total := 50; count := 2; average := 25 |} ])
  = [JStr "75.00"; JStr "25.00"].
Proof. reflexivity. Qed.


End PieChart.

(** ** routes/analytics.js: monthly trends *)

Module Trends.
Import JS.

(** The paths of an Expense or Savings document that the trend aggregation
    reads.  A stored date is a count of milliseconds since the epoch. *)
Record Txn := { owner : ObjectId; amount : float; currency : string; date : Z }.

(** [$month]: the month (1 to 12) of a date in UTC, by the usual conversion
    of a day count to a civil date. *)
Definition utcMonth (t : Z) : Z :=
  let z := (t / 86400000 + 719468)%Z in
  let era := (z / 146097)%Z in
  let doe := (z - era * 146097)%Z in
  let yoe := ((doe - doe / 1460 + doe / 36524 - doe / 146096) / 365)%Z in
  let doy := (doe - (365 * yoe + yoe / 4 - yoe / 100))%Z in
  let mp := ((5 * doy + 2) / 153)%Z in
  if (mp <? 10)%Z then (mp + 3)%Z else (mp - 9)%Z.

Example utcMonth_jan : utcMonth 1704067200000 = 1%Z.
Proof. reflexivity. Qed.
Example utcMonth_leap_day : utcMonth 1709164800000 = 2%Z.
Proof. reflexivity. Qed.
Example utcMonth_mar : utcMonth 1710460800000 = 3%Z.
Proof. reflexivity. Qed.
Example utcMonth_dec : utcMonth 1735689599000 = 12%Z.
Proof. reflexivity. Qed.
Example utcMonth_epoch : utcMonth 0 = 1%Z.
Proof. reflexivity. Qed.
Example utcMonth_before_epoch : utcMonth (-1) = 12%Z.
Proof. reflexivity. Qed.

(** [{ user, date: { $gte: startDate, $lte: endDate } }], with
    [baseQuery.currency = currency] added when [currency] is truthy. *)
Definition baseQuery (uid : ObjectId) (startDate endDate : Z)
    (cur : option string) (t : Txn) : bool :=
  bool_decide (owner t = uid)
  && (startDate <=? date t)%Z && (date t <=? endDate)%Z
  && match cur with
     | Some c => if Listing.truthy_str c then String.eqb (currency t) c else true
     | None => true
     end.

(** A row of [$group: { _id: { month: { $month: '$date' } }, total: { $sum:
    '$amount' }, count: { $sum: 1 } }]. *)
Record MonthRow := { month : Z; total : float; count : Z }.

(** The grouped and sorted rows for the documents [docs] taken by [$match]:
    one row for each month that has a document, in increasing month order;
    the amounts of a month are added in document order. *)
Definition monthRow (docs : list Txn) (m : Z) : list MonthRow :=
  match List.filter (fun t => (utcMonth (date t) =? m)%Z) docs with
  | [] => []
  | ds => [ {| month := m;
               total := fold_left (fun s t => (s + amount t)%float) ds 0%float;
               count := Z.of_nat (length ds) |} ]
  end.

Definition monthsOfYear : list Z :=
  [1; 2; 3; 4; 5; 6; 7; 8; 9; 10; 11; 12]%Z.

Definition aggregateMonthly (docs : list Txn) : list MonthRow :=
  flat_map (monthRow docs) monthsOfYear.

(** One element of [monthlyData]. *)
Record MonthEntry := {
  entry_month : Z;
  monthName : string;
  expenses : float;
  savings : float;
  netWorth : float
}.

(** [new Date(year, month - 1).toLocaleDateString('en-US', { month: 'long' })]
    for a year that is a number. *)
Definition longMonth (m : Z) : string :=
  nth (Z.to_nat (m - 1))
    ["January"; "February"; "March"; "April"; "May"; "June"; "July";
     "August"; "September"; "October"; "November"; "December"] "Invalid Date".

(** [rows.find(item => item._id.month === month)] *)
Definition findMonth (rows : list MonthRow) (m : Z) : option MonthRow :=
  List.find (fun item => (month item =? m)%Z) rows.

(** The body of the loop for one [month]. *)
Definition entryOf (monthlyExpenses monthlySavings : list MonthRow) (m : Z)
    : MonthEntry :=
  let expenseData := findMonth monthlyExpenses m in
  let savingsData := findMonth monthlySavings m in
  let e := match expenseData with Some r => total r | None => 0%float end in
  let s := match savingsData with Some r => total r | None => 0%float end in
  {| entry_month := m; monthName := longMonth m;
     expenses := e; savings := s; netWorth := (s - e)%float |}.

(** [for (let month = 1; month <= 12; month++) { ... monthlyData.push(...) }]:
    [steps] bounds the number of iterations that are run. *)
Fixpoint monthLoop (steps : nat) (monthlyExpenses monthlySavings : list MonthRow)
    (m : Z) (monthlyData : list MonthEntry) : list MonthEntry :=
  match steps with
  | O => monthlyData
  | S steps' =>
      if (m <=? 12)%Z then
        monthLoop steps' monthlyExpenses monthlySavings (m + 1)%Z
          (monthlyData ++ [entryOf monthlyExpenses monthlySavings m])
      else monthlyData
  end.

Record TrendReply := {
  year : Z;
  monthlyData : list MonthEntry;
  totalExpenses : float;
  totalSavings : float;
  averageMonthlyExpenses : float;
  averageMonthlySavings : float
}.

Definition sumOf (f : MonthEntry -> float) (data : list MonthEntry) : float :=
  fold_left (fun sum e => (sum + f e)%float) data 0%float.

Section Handler.
(** [isInt({ min: 2020, max: 2030 })], the numeric value of a year parameter,
    [new Date().getFullYear()], and the time values of [new Date(year, 0, 1)]
    and [new Date(year, 11, 31, 23, 59, 59)] in the server's time zone. *)
Variable isYear : string -> bool.
Variable yearNumber : string -> Z.
Variable thisYear : Z.
Variable yearStart : Z -> Z.
Variable yearEnd : Z -> Z.

Definition yearOf (y : option string) : Z :=
  match y with Some s => yearNumber s | None => thisYear end.

(** [GET /api/analytics/trends/monthly].  The [isString] check on [currency]
    holds of every single string. *)
Definition monthlyTrends (uid : ObjectId) (y cur : option string)
    (expenseDocs savingsDocs : list Txn) : Reply TrendReply :=
  if Listing.optional isYear y then
    let yr := yearOf y in
    let q := baseQuery uid (yearStart yr) (yearEnd yr) cur in
    let monthlyExpenses := aggregateMonthly (List.filter q expenseDocs) in
    let monthlySavings := aggregateMonthly (List.filter q savingsDocs) in
    let data := monthLoop 13 monthlyExpenses monthlySavings 1 [] in
    Success {| year := yr;
               monthlyData := data;
               totalExpenses := sumOf expenses data;
               totalSavings := sumOf savings data;
               averageMonthlyExpenses := (sumOf expenses data / 12)%float;
               averageMonthlySavings := (sumOf savings data / 12)%float |}
  else Failure 400 "Validation failed".
End Handler.

(** *** The loop runs twelve times *)

Lemma monthLoop_enough (steps : nat) (monthlyExpenses monthlySavings : list MonthRow) :
  (12 <= steps)%nat ->
  monthLoop steps monthlyExpenses monthlySavings 1 []
  = map (entryOf monthlyExpenses monthlySavings) monthsOfYear.
Proof.
  intros Hs.
  do 12 (destruct steps as [|steps]; [lia|]).
  destruct steps; reflexivity.
Qed.

(** *** Rows of the grouped aggregation *)


Lemma monthRow_month (docs : list Txn) (m : Z) (r : MonthRow) :
  In r (monthRow docs m) ->
  month r = m /\ exists t, In t docs /\ utcMonth (date t) = m.
Proof.
  unfold monthRow.
  destruct (List.filter (fun t => (utcMonth (date t) =? m)%Z) docs)
    as [|t ds] eqn:Hf; [intros []|].
  intros [<- | []]. split; [reflexivity|].
  assert (Ht : In t (List.filter (fun t => (utcMonth (date t) =? m)%Z) docs))
    by (rewrite Hf; left; reflexivity).
  apply filter_In in Ht as [Hin Hm]. exists t. split; [exact Hin | lia].
Qed.


(** A month without documents has no row. *)
Lemma findMonth_none (docs : list Txn) (m : Z) :
  (forall t, In t docs -> utcMonth (date t) <> m) ->
  findMonth (aggregateMonthly docs) m = None.
Proof.
  intros Hno. unfold findMonth.
  destruct (List.find (fun item => (month item =? m)%Z) (aggregateMonthly docs))
    as [r|] eqn:Hf; [|reflexivity].
  apply find_some in Hf as [Hin Hm].
  unfold aggregateMonthly in Hin. apply in_flat_map in Hin as (k & _ & Hr).
  apply monthRow_month in Hr as [Hk (t & Ht & Hmt)].
  exfalso. apply (Hno t Ht). lia.
Qed.


(** C3: whatever the year and the stored expense and savings records, a
    monthly-trends reply holds exactly 12 entries, for the months 1, 2, ...,
    12 in this order, and an entry whose month has no matching expense
    (savings) record reports expenses 0 (savings 0); the entries are made by
    the handler's own loop over the months, from whatever rows the store's
    grouping returned. *)
Theorem monthlyTrends_dense
    (isYear : string -> bool) (yearNumber : string -> Z) (thisYear : Z)
    (yearStart yearEnd : Z -> Z)
    (uid : ObjectId) (y cur : option string)
    (expenseDocs savingsDocs : list Txn) (r : TrendReply) :
  monthlyTrends isYear yearNumber thisYear yearStart yearEnd uid y cur
    expenseDocs savingsDocs = Success r ->
  length (monthlyData r) = 12%nat
  /\ map entry_month (monthlyData r) = [1; 2; 3; 4; 5; 6; 7; 8; 9; 10; 11; 12]%Z
  /\ StronglySorted Z.lt (map entry_month (monthlyData r))
  /\ (forall e, In e (monthlyData r) ->
      (forall t, In t expenseDocs ->
         baseQuery uid (yearStart (yearOf yearNumber thisYear y))
           (yearEnd (yearOf yearNumber thisYear y)) cur t = true ->
         utcMonth (date t) <> entry_month e) ->
      expenses e = 0%float)
  /\ (forall e, In e (monthlyData r) ->
      (forall t, In t savingsDocs ->
         baseQuery uid (yearStart (yearOf yearNumber thisYear y))
           (yearEnd (yearOf yearNumber thisYear y)) cur t = true ->
         utcMonth (date t) <> entry_month e) ->
      savings e = 0%float).
Proof.
  unfold monthlyTrends. destruct (Listing.optional isYear y); [|discriminate].
  set (q := baseQuery uid (yearStart (yearOf yearNumber thisYear y))
              (yearEnd (yearOf yearNumber thisYear y)) cur).
  intros H.
  assert (Hd : monthlyData r
               = map (entryOf (aggregateMonthly (List.filter q expenseDocs))
                              (aggregateMonthly (List.filter q savingsDocs)))
                   monthsOfYear).
  { injection H as <-.
    exact (monthLoop_enough 13 _ _ ltac:(lia)). }
  clear H. rewrite Hd.
  assert (Hmonths :
    map entry_month
      (map (entryOf (aggregateMonthly (List.filter q expenseDocs))
                    (aggregateMonthly (List.filter q savingsDocs))) monthsOfYear)
    = monthsOfYear) by reflexivity.
  split; [reflexivity|]. split; [exact Hmonths|]. split; [|split].
  - rewrite Hmonths. unfold monthsOfYear.
    repeat (constructor; [|repeat (constructor; [lia|]); constructor]).
    constructor.
  - intros e He Hno. apply in_map_iff in He as (m & <- & _).
    unfold entryOf. cbn [expenses entry_month] in *.
    rewrite findMonth_none; [reflexivity|].
    intros t Ht. apply filter_In in Ht as [Hin Hq]. exact (Hno t Hin Hq).
  - intros e He Hno. apply in_map_iff in He as (m & <- & _).
    unfold entryOf. cbn [savings entry_month] in *.
    rewrite (findMonth_none (List.filter q savingsDocs)); [reflexivity|].
    intros t Ht. apply filter_In in Ht as [Hin Hq]. exact (Hno t Hin Hq).
Qed.

(** *** A sample year *)

(** The first instant of a year for a server running in UTC, by the usual
    conversion of a civil date to a day count. *)
Definition utcYearStart (y : Z) : Z :=
  let y' := (y - 1)%Z in
  let era := (y' / 400)%Z in
  let yoe := (y' - era * 400)%Z in
  let doe := (yoe * 365 + yoe / 4 - yoe / 100 + 306)%Z in
  ((era * 146097 + doe - 719468) * 86400000)%Z.

Definition utcYearEnd (y : Z) : Z := (utcYearStart (y + 1) - 1000)%Z.

Example utcYearStart_2024 : utcYearStart 2024 = 1704067200000%Z.
Proof. reflexivity. Qed.

Example utcYearEnd_2024 : utcYearEnd 2024 = 1735689599000%Z.
Proof. reflexivity. Qed.

(** One expense in March 2024; two savings in March 2024, one in July 2024,
    one of another user, and one of another year. *)
Definition sampleExpenses : list Txn :=
  [ {| owner := "u1"; amount := 100; currency := "UGX"; date := 1710460800000 |} ].

Definition sampleSavings : list Txn :=
  [ {| owner := "u1"; amount := 40; currency := "UGX"; date := 1710460800000 |};
    {| owner := "u1"; amount := 60; currency := "UGX"; date := 1710547200000 |};
    {| owner := "u1"; amount := 5; currency := "UGX"; date := 1720000000000 |};
    {| owner := "u2"; amount := 999; currency := "UGX"; date := 1710460800000 |};
    {| owner := "u1"; amount := 777; currency := "UGX"; date := 1678838400000 |} ].

(** The reply for 2024 has the twelve months in order; March carries the
    sums, July the single saving, every other month zeros. *)
Lemma monthlyTrends_dense_witness :
  exists r,
    monthlyTrends (Listing.sampleInt 2020 2030) Listing.digits_value 2026
      utcYearStart utcYearEnd "u1" (Some "2024") None sampleExpenses sampleSavings
    = Success r
    /\ length (monthlyData r) = 12%nat
    /\ map entry_month (monthlyData r) = [1; 2; 3; 4; 5; 6; 7; 8; 9; 10; 11; 12]%Z
    /\ map expenses (monthlyData r) = [0; 0; 100; 0; 0; 0; 0; 0; 0; 0; 0; 0]%float
    /\ map savings (monthlyData r) = [0; 0; 100; 0; 0; 0; 5; 0; 0; 0; 0; 0]%float.
Proof.
  eexists. split; [vm_compute; reflexivity|].
  match goal with
  | |- length (monthlyData ?r) = _ /\ _ =>
      destruct (monthlyTrends_dense (Listing.sampleInt 2020 2030)
                  Listing.digits_value 2026 utcYearStart utcYearEnd
                  "u1" (Some "2024") None sampleExpenses sampleSavings r eq_refl)
        as (Hlen & Hmonths & _)
  end.
  split; [exact Hlen|]. split; [exact Hmonths|]. split; reflexivity.
Defined.
End Trends.

(** ** Sign of rounded results *)

Module Rounding.
Import JS.
Local Open Scope float_scope.

(** A specification float that is a zero, a finite number or an infinity of
    sign [s]. *)
Definition signed (s : bool) (x : spec_float) : Prop :=
  x = S754_zero s \/ x = S754_infinity s \/ exists m e, x = S754_finite s m e.

Lemma shr_1_nonneg (mrs : shr_record) :
  (0 <= shr_m mrs)%Z -> (0 <= shr_m (shr_1 mrs))%Z.
Proof.
  destruct mrs as [m r s]. simpl.
  destruct m as [|[p|p|]|[p|p|]]; simpl; lia.
Qed.

Lemma iter_shr_1_nonneg (p : positive) (mrs : shr_record) :
  (0 <= shr_m mrs)%Z -> (0 <= shr_m (SpecFloat.iter_pos shr_1 p mrs))%Z.
Proof.
  revert mrs. induction p as [p IH|p IH|]; intros mrs H; simpl.
  - apply IH, IH, shr_1_nonneg, H.
  - apply IH, IH, H.
  - apply shr_1_nonneg, H.
Qed.

Lemma shr_fexp_nonneg (m e : Z) (l : location) :
  (0 <= m)%Z -> (0 <= shr_m (fst (shr_fexp prec emax m e l)))%Z.
Proof.
  intros Hm. unfold shr_fexp, shr.
  assert (H0 : (0 <= shr_m (shr_record_of_loc m l))%Z)
    by (destruct l as [|[]]; exact Hm).
  destruct (fexp prec emax (Zdigits2 m + e) - e)%Z; simpl;
    [exact H0 | now apply iter_shr_1_nonneg | exact H0].
Qed.

Lemma round_nearest_even_nonneg (m : Z) (l : location) :
  (0 <= m)%Z -> (0 <= round_nearest_even m l)%Z.
Proof.
  intros Hm. unfold round_nearest_even.
  destruct l as [|[]]; try lia. destruct (Z.even m); lia.
Qed.

(** Rounding a non-negative mantissa gives a result of the requested sign. *)
Lemma binary_round_aux_signed (s : bool) (m e : Z) (l : location) :
  (0 <= m)%Z -> signed s (binary_round_aux prec emax s m e l).
Proof.
  intros Hm. unfold binary_round_aux.
  pose proof (shr_fexp_nonneg m e l Hm) as H1.
  destruct (shr_fexp prec emax m e l) as [mrs' e'] eqn:E1. simpl in H1.
  pose proof (shr_fexp_nonneg
                (round_nearest_even (shr_m mrs') (loc_of_shr_record mrs')) e'
                loc_Exact (round_nearest_even_nonneg _ _ H1)) as H2.
  destruct (shr_fexp prec emax
              (round_nearest_even (shr_m mrs') (loc_of_shr_record mrs')) e'
              loc_Exact) as [mrs'' e''] eqn:E2. simpl in H2.
  destruct (shr_m mrs'') as [|p|p]; [left; reflexivity | | lia].
  destruct (e'' <=? emax - prec)%Z; right; [right; eauto | left; reflexivity].
Qed.

(** Zeros of either sign, positive finite numbers and [+Infinity]. *)
Definition nonneg_sf (x : spec_float) : Prop :=
  match x with
  | S754_zero _ | S754_finite false _ _ | S754_infinity false => True
  | _ => False
  end.

Lemma signed_nonneg (x : spec_float) : signed false x -> nonneg_sf x.
Proof. intros [-> | [-> | (m & e & ->)]]; exact I. Qed.

Lemma leb_zero_nonneg (x : float) :
  (0 <=? x) = true <-> nonneg_sf (Prim2SF x).
Proof.
  rewrite FloatAxioms.leb_spec.
  replace (Prim2SF 0) with (S754_zero false) by reflexivity.
  unfold SFleb. destruct (Prim2SF x) as [s|[]| |[] m e]; simpl;
    split; intros H; try exact I; try discriminate; try reflexivity;
    try contradiction.
Qed.

Lemma div_core_nonneg (m1 m2 : positive) (e1 e2 : Z) :
  (0 <= fst (fst (SFdiv_core_binary prec emax (Zpos m1) e1 (Zpos m2) e2)))%Z.
Proof.
  unfold SFdiv_core_binary.
  set (s := (e1 - e2 - _)%Z).
  set (m' := match s with Zpos _ => Z.shiftl (Zpos m1) s | Z0 => Zpos m1 | Zneg _ => 0%Z end).
  assert (Hm : (0 <= m')%Z).
  { subst m'. destruct s; try lia. apply Z.shiftl_nonneg. lia. }
  pose proof (Z.div_pos m' (Zpos m2) Hm ltac:(lia)) as Hq.
  unfold Z.div in Hq. destruct (Z.div_eucl m' (Zpos m2)) as [q r]. exact Hq.
Qed.

(** The quotient of a finite non-negative Number by a positive one is
    non-negative (in particular it is not [NaN]). *)
Lemma div_nonneg (a t : float) :
  is_finite a = true -> (0 <=? a) = true -> (0 <? t) = true ->
  (0 <=? a / t) = true.
Proof.
  rewrite is_finite_spec, !leb_zero_nonneg, FloatAxioms.ltb_spec,
    FloatAxioms.div_spec.
  replace (Prim2SF 0) with (S754_zero false) by reflexivity.
  unfold SFltb, FloatAxioms.SF64div, SFdiv.
  destruct (Prim2SF a) as [sa|sa| |sa ma ea]; try discriminate; intros _;
    destruct (Prim2SF t) as [st|st| |st mt et]; simpl; try discriminate;
    destruct st; try discriminate; try (intros; exact I).
  destruct sa; [intros []|]. intros _ _.
  pose proof (div_core_nonneg ma mt ea et) as Hq.
  destruct (SFdiv_core_binary prec emax (Zpos ma) ea (Zpos mt) et)
    as [[mz ez] lz]. simpl in Hq.
  apply signed_nonneg. now apply binary_round_aux_signed.
Qed.

(** Multiplying a non-negative Number by 100 keeps it non-negative. *)
Lemma mul_100_nonneg (x : float) :
  (0 <=? x) = true -> (0 <=? x * 100) = true.
Proof.
  rewrite !leb_zero_nonneg, FloatAxioms.mul_spec.
  replace (Prim2SF 100) with (S754_finite false 7036874417766400 (-46))
    by reflexivity.
  unfold FloatAxioms.SF64mul, SFmul.
  destruct (Prim2SF x) as [s|[]| |[] m e]; simpl; try (intros; exact I);
    try contradiction.
  intros _. apply signed_nonneg. now apply binary_round_aux_signed.
Qed.
End Rounding.

(** ** models/Savings.js: the stored goal progress *)

Module GoalProgress.
Import JS Savings Rounding.
Local Open Scope float_scope.

Lemma leb_not_nan (a b : float) :
  (a <=? b) = true -> is_nan a = false /\ is_nan b = false.
Proof.
  rewrite !is_nan_spec, FloatAxioms.leb_spec. unfold SFleb.
  destruct (Prim2SF a), (Prim2SF b); simpl; intros H;
    try discriminate; split; reflexivity.
Qed.

Lemma Math_min_nonneg (x y : float) :
  (0 <=? x) = true -> (0 <=? y) = true -> (0 <=? Math_min x y) = true.
Proof.
  intros Hx Hy. unfold Math_min.
  destruct (leb_not_nan _ _ Hx) as [_ ->].
  destruct (leb_not_nan _ _ Hy) as [_ ->]. simpl.
  destruct (x <? y); [exact Hx|]. destruct (y <? x); [exact Hy|].
  destruct (classify x); assumption.
Qed.

(** If [Math.min(x, y)] has reached a non-zero [y], it is [y]. *)
Lemma Math_min_reaches (x y : float) :
  is_zero y = false -> (y <=? Math_min x y) = true -> Math_min x y = y.
Proof.
  intros Zy H. destruct (leb_not_nan _ _ H) as [Ny Nm].
  assert (Nx : is_nan x = false).
  { unfold Math_min in Nm. destruct (is_nan x); [|reflexivity].
    simpl in Nm. discriminate Nm. }
  destruct (x <? y) eqn:Lxy.
  - exfalso. unfold Math_min in H. rewrite Nx, Ny, Lxy in H. simpl in H.
    rewrite FloatAxioms.ltb_spec in Lxy. rewrite FloatAxioms.leb_spec in H.
    unfold SFltb, SFleb in *.
    rewrite (SFcompare_antisym (Prim2SF x) (Prim2SF y)) in H.
    destruct (SFcompare (Prim2SF x) (Prim2SF y)) as [[]|]; discriminate.
  - apply Math_min_clamp_ge; try assumption.
    apply not_ltb_leb; assumption.
Qed.

Lemma goalProgressPercentage_pos (d : SavingsDoc) (t : float) :
  targetAmount (goal d) = Some t -> (0 <? t) = true ->
  goalProgressPercentage d = Math_min (amount d / t * 100) 100.
Proof.
  intros Ht Hp. unfold goalProgressPercentage. rewrite Ht. simpl.
  rewrite (pos_truthy t Hp), (pos_nonzero t Hp). reflexivity.
Qed.


(** X2: after a save with a target greater than 0 the stored progress is the
    value of the virtual [goalProgressPercentage], on the saved document and
    on the one that was submitted. *)
Theorem stored_progress_is_virtual (d : SavingsDoc) (t : float) :
  targetAmount (goal d) = Some t -> (0 <? t) = true ->
  progress (goal (preSave d)) = goalProgressPercentage (preSave d)
  /\ goalProgressPercentage (preSave d) = goalProgressPercentage d.
Proof.
  intros Ht Hp. unfold preSave.
  rewrite (updateGoalProgress_pos d t Ht Hp).
  rewrite (goalProgressPercentage_pos d t Ht Hp).
  match goal with
  | |- context [goalProgressPercentage ?d'] =>
      rewrite (goalProgressPercentage_pos d' t eq_refl Hp)
  end.
  simpl. split; reflexivity.
Qed.

Lemma stored_progress_is_virtual_witness :
  progress (goal (preSave (sample "u" 50 (Some 200))))
  = goalProgressPercentage (preSave (sample "u" 50 (Some 200)))
  /\ goalProgressPercentage (preSave (sample "u" 50 (Some 200))) = 25.
Proof.
  destruct (stored_progress_is_virtual (sample "u" 50 (Some 200)) 200
              eq_refl eq_refl) as [H1 H2].
  split; [exact H1 | rewrite H2; reflexivity].
Defined.

(** X3: after a save with a target greater than 0, the goal is marked completed
    exactly when the stored progress is 100, and exactly when
    amount / targetAmount * 100 has reached 100. *)
Theorem completed_iff_full (d : SavingsDoc) (t : float) :
  targetAmount (goal d) = Some t -> (0 <? t) = true ->
  (isCompleted (goal (preSave d)) = true <-> progress (goal (preSave d)) = 100)
  /\ (isCompleted (goal (preSave d)) = true
      <-> (100 <=? amount d / t * 100) = true).
Proof.
  intros Ht Hp. unfold preSave.
  rewrite (updateGoalProgress_pos d t Ht Hp). simpl. unfold geb.
  assert (H1 : (100 <=? Math_min (amount d / t * 100) 100) = true
               <-> Math_min (amount d / t * 100) 100 = 100).
  { split.
    - apply Math_min_reaches. reflexivity.
    - intros ->. reflexivity. }
  split; [exact H1|]. rewrite H1. split.
  - intros Hm.
    assert (Nm : is_nan (Math_min (amount d / t * 100) 100) = false)
      by (rewrite Hm; reflexivity).
    assert (Nx : is_nan (amount d / t * 100) = false).
    { unfold Math_min in Nm. destruct (is_nan (amount d / t * 100));
        [simpl in Nm; discriminate Nm | reflexivity]. }
    apply not_ltb_leb; [reflexivity | exact Nx |].
    destruct (amount d / t * 100 <? 100) eqn:L; [|reflexivity].
    unfold Math_min in Hm. rewrite Nx, L in Hm. simpl in Hm.
    rewrite Hm in L. discriminate L.
  - intros Hge. apply Math_min_clamp_ge; [reflexivity | reflexivity | exact Hge].
Qed.

Lemma completed_iff_full_witness :
  isCompleted (goal (preSave (sample "u" 200 (Some 200)))) = true
  /\ isCompleted (goal (preSave (sample "u" 199 (Some 200)))) <> true.
Proof.
  split.
  - apply (proj2 (completed_iff_full (sample "u" 200 (Some 200)) 200
                    eq_refl eq_refl)). reflexivity.
  - intros H.
    apply (proj2 (completed_iff_full (sample "u" 199 (Some 200)) 200
                    eq_refl eq_refl)) in H.
    discriminate H.
Defined.

(** X4: for a finite amount that is not negative and a target greater than 0,
    the stored progress lies between 0 and 100 (so it is not [NaN]): the
    range that the schema declares for [goal.progress]. *)
Theorem stored_progress_in_range (d : SavingsDoc) (t : float) :
  targetAmount (goal d) = Some t -> (0 <? t) = true ->
  is_finite (amount d) = true -> (0 <=? amount d) = true ->
  (0 <=? progress (goal (preSave d))) = true
  /\ (progress (goal (preSave d)) <=? 100) = true.
Proof.
  intros Ht Hp Hf Ha. unfold preSave.
  rewrite (updateGoalProgress_pos d t Ht Hp). simpl.
  assert (Hq : (0 <=? amount d / t * 100) = true)
    by (apply mul_100_nonneg, div_nonneg; assumption).
  assert (H0 : (0 <=? Math_min (amount d / t * 100) 100) = true)
    by (apply Math_min_nonneg; [exact Hq | reflexivity]).
  split; [exact H0|].
  apply Math_min_le_r. apply (leb_not_nan _ _ H0).
Qed.

Lemma stored_progress_in_range_witness :
  (0 <=? progress (goal (preSave (sample "u" 350 (Some 200))))) = true
  /\ (progress (goal (preSave (sample "u" 350 (Some 200)))) <=? 100) = true.
Proof.
  apply (stored_progress_in_range (sample "u" 350 (Some 200)) 200);
    reflexivity.
Defined.

(** *** The virtual [durationDays] *)

(** [if (!this.period.startDate || !this.period.endDate) return 0;
     const diffTime = Math.abs(this.period.endDate - this.period.startDate);
     return Math.ceil(diffTime / (1000 * 60 * 60 * 24));]
    on the time values of the two dates, which are whole numbers of
    milliseconds. *)
Definition durationDays (startDate endDate : option Z) : Z :=
  match startDate, endDate with
  | Some s, Some e =>
      let diffTime := Z.abs (e - s) in
      Listing.Math_ceil (inject_Z diffTime / inject_Z (1000 * 60 * 60 * 24))%Q
  | _, _ => 0%Z
  end.

Example durationDays_one_week :
  durationDays (Some 1704067200000%Z) (Some 1704672000000%Z) = 7%Z.
Proof. reflexivity. Qed.

Example durationDays_one_second :
  durationDays (Some 1704067200000%Z) (Some 1704067201000%Z) = 1%Z.
Proof. reflexivity. Qed.

End GoalProgress.

(** ** routes/savings.js: deleting and updating one record, round trips *)

Module RecordAccess.
Import Savings SavingsRecords.

Section ById.
Variable castable : string -> bool.

(** [DELETE /api/savings/:id], with
    [Savings.findOneAndDelete({ _id: req.params.id, user: req.user._id })]. *)
Definition deleteById (uid : ObjectId) (id : string)
    (coll : gmap string SavingsDoc) : gmap string SavingsDoc * Reply unit :=
  if castable id then
    match findOne id uid coll with
    | Some _ => (delete id coll, Success tt)
    | None => (coll, Failure 404 "Savings entry not found")
    end
  else (coll, Failure 500 "Server error while deleting savings entry").

(** The body of a [PUT], its validation chain, the document after the
    assignments [savings[key] = req.body[key]] of the body's keys, and the
    schema validation that [save] runs before the pre-save step. *)
Variable Body : Type.
Variable bodyValid : Body -> bool.
Variable assign : Body -> SavingsDoc -> SavingsDoc.
Variable schemaValid : SavingsDoc -> bool.

End ById.



(** X8: after a delete request, whatever its outcome, the caller cannot fetch
    a record under that identifier: fetching answers 404 when the identifier
    is well formed and 500 when it is not. *)
Theorem getById_after_deleteById (castable : string -> bool)
    (uid : ObjectId) (id : string) (coll : gmap string SavingsDoc) :
  getById castable uid id (deleteById castable uid id coll).1
  = if castable id then Failure 404 "Savings entry not found"
    else Failure 500 "Server error while fetching savings entry".
Proof.
  unfold getById, deleteById. destruct (castable id); [|reflexivity].
  destruct (findOne id uid coll) as [d|] eqn:Hf; cbn [fst].
  - destruct (findOne id uid (delete id coll)) as [d'|] eqn:Hf'; [|reflexivity].
    apply findOne_Some in Hf' as [Hl _]. rewrite lookup_delete_eq in Hl.
    discriminate Hl.
  - rewrite Hf. reflexivity.
Qed.




(** *** Bulk deletion again *)

(** X11: repeating a bulk-delete request finds nothing left to delete: the
    collection stays as the first request left it, and a second successful
    reply reports a deletedCount of 0. *)
Theorem bulkDelete_idempotent (isMongoId : string -> bool)
    (uid : ObjectId) (body : option (list string)) (coll : gmap string SavingsDoc) :
  (bulkDelete isMongoId uid body (bulkDelete isMongoId uid body coll).1).1
  = (bulkDelete isMongoId uid body coll).1
  /\ (forall n,
      (bulkDelete isMongoId uid body (bulkDelete isMongoId uid body coll).1).2
      = Success n -> n = 0%Z).
Proof.
  unfold bulkDelete. destruct body as [ids|]; [|split; [reflexivity | discriminate]].
  destruct ((1 <=? length ids)%nat && forallb isMongoId ids);
    [|split; [reflexivity | discriminate]].
  cbv zeta. cbn [fst snd]. split.
  - apply map_eq. intros k. rewrite !deleteMany_lookup.
    destruct (coll !! k) as [d|]; [|reflexivity].
    case_bool_decide as Hs; [reflexivity|].
    rewrite bool_decide_false by exact Hs. reflexivity.
  - intros n [= <-]. unfold deleteMany. cbn [fst snd].
    replace (filter (selected ids uid)
               (filter (fun kd => ~ selected ids uid kd) coll))
      with (∅ : gmap string SavingsDoc); [reflexivity|].
    symmetry. apply map_eq. intros k. rewrite lookup_empty.
    apply map_lookup_filter_None. right. intros d Hd Hs.
    apply map_lookup_filter_Some in Hd as [_ Hn]. exact (Hn Hs).
Qed.

(** X12: the validation of a bulk-delete request is all or nothing: an empty
    list, or a list with one identifier that is not a Mongo id, is refused
    with a 400 and no record is deleted, the well-formed identifiers of the
    list included. *)
Theorem bulkDelete_refused (isMongoId : string -> bool)
    (uid : ObjectId) (ids : list string) (coll : gmap string SavingsDoc) :
  ids = [] \/ (exists i, i ∈ ids /\ isMongoId i = false) ->
  bulkDelete isMongoId uid (Some ids) coll = (coll, Failure 400 "Validation failed").
Proof.
  intros H. unfold bulkDelete.
  replace ((1 <=? length ids)%nat && forallb isMongoId ids) with false;
    [reflexivity|].
  symmetry. destruct H as [-> | (i & Hin & Hi)]; [reflexivity|].
  apply andb_false_iff. right. apply not_true_is_false. intros Hall.
  rewrite forallb_forall in Hall.
  apply list_elem_of_In in Hin. rewrite (Hall i Hin) in Hi. discriminate.
Qed.

(** Alice sends two of her identifiers and the word "bulk": nothing goes. *)
Lemma bulkDelete_refused_witness :
  bulkDelete hex24 alice (Some [id1; "bulk"; id3]) demo
  = (demo, Failure 400 "Validation failed").
Proof.
  apply (bulkDelete_refused hex24 alice [id1; "bulk"; id3] demo).
  right. exists "bulk". split; [|reflexivity].
  apply list_elem_of_further, list_elem_of_here.
Defined.
End RecordAccess.

(** ** routes/savings.js and routes/expense.js: the order of the routes *)

Module Router.
Import Savings SavingsRecords RecordAccess.

Inductive Method : Type := GET | POST | PUT | DELETE.

Definition method_eqb (a b : Method) : bool :=
  match a, b with
  | GET, GET | POST, POST | PUT, PUT | DELETE, DELETE => true
  | _, _ => false
  end.

(** A segment of a route path: a literal, or a named parameter [:name]. *)
Inductive Segment : Type :=
| Lit (s : string)
| Param (name : string).

(** The handlers of the savings router, in the order of their registration
    with [router.post], [router.get], [router.put] and [router.delete]. *)
Inductive SavingsHandler : Type :=
| CreateSavings | ListSavings | GetSavingsById | UpdateSavings | DeleteSavings
| SummaryPeriod | Goals | ByType | BulkDeleteSavings | SavingsCategories.

Definition savingsRoutes : list (Method * list Segment * SavingsHandler) :=
  [ (POST, [], CreateSavings);
    (GET, [], ListSavings);
    (GET, [Param "id"], GetSavingsById);
    (PUT, [Param "id"], UpdateSavings);
    (DELETE, [Param "id"], DeleteSavings);
    (GET, [Lit "summary"; Lit "period"], SummaryPeriod);
    (GET, [Lit "goals"], Goals);
    (GET, [Lit "type"; Param "type"], ByType);
    (DELETE, [Lit "bulk"], BulkDeleteSavings);
    (GET, [Lit "categories"], SavingsCategories) ].

(** The same for the expenses router. *)
Inductive ExpenseHandler : Type :=
| CreateExpense | ListExpenses | GetExpenseById | UpdateExpense | DeleteExpense
| ExpenseSummary | BulkDeleteExpenses | ExpenseCategories.

Definition expenseRoutes : list (Method * list Segment * ExpenseHandler) :=
  [ (POST, [], CreateExpense);
    (GET, [], ListExpenses);
    (GET, [Param "id"], GetExpenseById);
    (PUT, [Param "id"], UpdateExpense);
    (DELETE, [Param "id"], DeleteExpense);
    (GET, [Lit "summary"; Lit "summary"], ExpenseSummary);
    (DELETE, [Lit "bulk"], BulkDeleteExpenses);
    (GET, [Lit "categories"], ExpenseCategories) ].

Section Dispatch.
(** How the router compares a literal of a route path with a segment of the
    request path (by default, without regard to case). *)
Variable sameLiteral : string -> string -> bool.

(** A request path, as its non-empty segments below the mount point of the
    router, against a route path: literals must agree, a parameter takes any
    one segment. *)
Fixpoint matchPath (pattern : list Segment) (path : list string) : bool :=
  match pattern, path with
  | [], [] => true
  | Lit s :: pattern', x :: path' => sameLiteral s x && matchPath pattern' path'
  | Param _ :: pattern', x :: path' =>
      negb (String.eqb x "") && matchPath pattern' path'
  | _, _ => false
  end.

(** The handler that answers a request: the first route, in registration
    order, whose method and path match.  Every handler of the two routers
    sends its reply itself and never hands over to a later route. *)
Definition dispatch {H : Type} (routes : list (Method * list Segment * H))
    (m : Method) (path : list string) : option H :=
  match List.find (fun r => method_eqb r.1.1 m && matchPath r.1.2 path) routes with
  | Some r => Some r.2
  | None => None
  end.
End Dispatch.

(** Comparison of two strings without regard to the case of ASCII letters. *)
Definition lower (c : ascii) : ascii :=
  let n := nat_of_ascii c in
  if ((65 <=? n) && (n <=? 90))%nat then ascii_of_nat (n + 32) else c.

Definition lowercase (s : string) : string :=
  string_of_list_ascii (map lower (list_ascii_of_string s)).

Definition eqb_nocase (a b : string) : bool :=
  String.eqb (lowercase a) (lowercase b).

Example dispatch_summary_period :
  dispatch eqb_nocase savingsRoutes GET ["summary"; "Period"] = Some SummaryPeriod.
Proof. reflexivity. Qed.

Example dispatch_by_type :
  dispatch eqb_nocase savingsRoutes GET ["type"; "Goal"] = Some ByType.
Proof. reflexivity. Qed.

Example dispatch_goals :
  dispatch eqb_nocase savingsRoutes GET ["goals"] = Some GetSavingsById.
Proof. reflexivity. Qed.

(** X13: no request reaches the handlers registered for [/goals], [/bulk] and
    [/categories] of the savings router, nor those for [/bulk] and
    [/categories] of the expenses router: a path of one segment is taken by
    the [/:id] route of the same method, which is registered before them. *)
Theorem shadowed_routes (sameLiteral : string -> string -> bool)
    (m : Method) (path : list string) :
  Forall (fun s => s <> ""%string) path ->
  dispatch sameLiteral savingsRoutes m path <> Some Goals
  /\ dispatch sameLiteral savingsRoutes m path <> Some BulkDeleteSavings
  /\ dispatch sameLiteral savingsRoutes m path <> Some SavingsCategories
  /\ dispatch sameLiteral expenseRoutes m path <> Some BulkDeleteExpenses
  /\ dispatch sameLiteral expenseRoutes m path <> Some ExpenseCategories.
Proof.
  intros Hne.
  assert (Hx : forall x rest, path = x :: rest -> String.eqb x "" = false).
  { intros x rest ->. apply Forall_inv in Hne.
    destruct (String.eqb_spec x ""); [contradiction | reflexivity]. }
  unfold dispatch, savingsRoutes, expenseRoutes.
  destruct path as [|x [|y [|z rest]]];
    try rewrite (Hx _ _ eq_refl);
    destruct m; simpl; try rewrite (Hx _ _ eq_refl); simpl;
    repeat match goal with
    | |- context [sameLiteral ?a ?b] => destruct (sameLiteral a b); simpl
    | |- context [String.eqb ?a ""] => destruct (String.eqb a ""); simpl
    end; repeat split; intros H; discriminate H.
Qed.

Lemma shadowed_routes_witness :
  dispatch eqb_nocase savingsRoutes DELETE ["bulk"] <> Some BulkDeleteSavings
  /\ dispatch eqb_nocase savingsRoutes GET ["goals"] <> Some Goals.
Proof.
  split.
  - apply (shadowed_routes eqb_nocase DELETE ["bulk"]).
    constructor; [discriminate | constructor].
  - apply (shadowed_routes eqb_nocase GET ["goals"]).
    constructor; [discriminate | constructor].
Defined.

(** X14: what a bulk-delete request gets instead: [DELETE /bulk] is answered by
    the handler of [DELETE /:id] with the word "bulk" as the identifier; as
    that does not cast to an ObjectId, the reply is a 500 and nothing is
    deleted, whatever list of identifiers the body carries. *)
Theorem bulk_request_outcome (sameLiteral : string -> string -> bool)
    (castable : string -> bool) (uid : ObjectId)
    (coll : gmap string SavingsDoc) :
  castable "bulk" = false ->
  dispatch sameLiteral savingsRoutes DELETE ["bulk"] = Some DeleteSavings
  /\ deleteById castable uid "bulk" coll
     = (coll, Failure 500 "Server error while deleting savings entry").
Proof.
  intros Hc. split; [reflexivity|].
  unfold deleteById. rewrite Hc. reflexivity.
Qed.

Lemma bulk_request_outcome_witness :
  dispatch eqb_nocase savingsRoutes DELETE ["bulk"] = Some DeleteSavings
  /\ deleteById hex24 alice "bulk" demo
     = (demo, Failure 500 "Server error while deleting savings entry").
Proof.
  apply (bulk_request_outcome eqb_nocase hex24 alice demo). reflexivity.
Defined.
End Router.

(** ** Listing: the window, the owner's view, equality clauses *)

Module ListingWindow.
Import JS Listing.



(** *** The owner's view *)

Lemma savingsQuery_user (newDate parseFloat : string -> float)
    (uid : ObjectId) (c : Criteria) :
  savingsQuery newDate parseFloat uid c !! "user" = Some (Equals (VId uid)).
Proof.
  unfold savingsQuery.
  rewrite lookup_set_range_ne, !lookup_set_equals_ne, lookup_set_range_ne
    by discriminate.
  apply lookup_singleton_eq.
Qed.

(** X16: the listing of a user counts that user's documents only: the total is
    the same on the whole collection and on the part the caller owns, and
    every matching document is the caller's. *)
Theorem listing_owner_view (newDate parseFloat : string -> float)
    (uid : ObjectId) (c : Criteria) (coll : gmap string Savings.SavingsDoc) :
  countDocuments (savingsQuery newDate parseFloat uid c) coll
  = countDocuments (savingsQuery newDate parseFloat uid c)
      (filter (fun kd => Savings.user kd.2 = uid) coll)
  /\ (forall d, matches (savingsQuery newDate parseFloat uid c) d = true ->
      Savings.user d = uid).
Proof.
  assert (Ho : forall d, matches (savingsQuery newDate parseFloat uid c) d = true ->
                    Savings.user d = uid).
  { intros d. apply matches_owner, savingsQuery_user. }
  split; [|exact Ho].
  unfold countDocuments. do 2 f_equal.
  apply map_eq. intros k. rewrite !map_lookup_filter.
  destruct (coll !! k) as [d|]; simpl; [|reflexivity].
  destruct (decide (Savings.user d = uid)) as [Hu|Hu].
  - rewrite (option_guard_True (Savings.user d = uid)) by exact Hu. reflexivity.
  - rewrite (option_guard_False (Savings.user d = uid)) by exact Hu. simpl.
    rewrite option_guard_False; [reflexivity|].
    intros Hm. apply Hu, Ho, Hm.
Qed.

(** *** Equality clauses *)

(** The clause for [type], [category] or [paymentMethod]: the parameter
    itself when it is a non-empty string, and no clause when it is absent or
    empty. *)
Definition equals_clause (o : option string) : option Clause :=
  match o with
  | Some s => if String.eqb s "" then None else Some (Equals (VStr s))
  | None => None
  end.

Lemma lookup_set_equals_eq (f : string) (o : option string)
    (q : gmap string Clause) :
  q !! f = None -> set_equals f o q !! f = equals_clause o.
Proof.
  intros Hq. unfold set_equals, equals_clause, truthy_str.
  destruct o as [s|]; [|exact Hq].
  destruct (String.eqb s ""); simpl; [exact Hq | apply lookup_insert_eq].
Qed.

(** X17: a [type], [category] or [paymentMethod] parameter makes an equality
    clause exactly when it is a non-empty string: an empty value, which the
    [isString] check lets through, is ignored, and the filter is the one of
    a request without the parameter. *)
Theorem equality_clauses (newDate parseFloat : string -> float)
    (uid : ObjectId) (c : Criteria) :
  savingsQuery newDate parseFloat uid c !! "type" = equals_clause (type c)
  /\ savingsQuery newDate parseFloat uid c !! "category"
     = equals_clause (category c)
  /\ expenseQuery newDate parseFloat uid c !! "category"
     = equals_clause (category c)
  /\ expenseQuery newDate parseFloat uid c !! "paymentMethod"
     = equals_clause (paymentMethod c).
Proof.
  unfold savingsQuery, expenseQuery. repeat split.
  - rewrite lookup_set_range_ne, lookup_set_equals_ne by discriminate.
    apply lookup_set_equals_eq.
    rewrite lookup_set_range_ne by discriminate.
    apply lookup_singleton_ne. discriminate.
  - rewrite lookup_set_range_ne by discriminate.
    apply lookup_set_equals_eq.
    rewrite lookup_set_equals_ne, lookup_set_range_ne by discriminate.
    apply lookup_singleton_ne. discriminate.
  - rewrite lookup_set_equals_ne, lookup_set_range_ne by discriminate.
    apply lookup_set_equals_eq.
    rewrite lookup_set_range_ne by discriminate.
    apply lookup_singleton_ne. discriminate.
  - apply lookup_set_equals_eq.
    rewrite lookup_set_range_ne, lookup_set_equals_ne, lookup_set_range_ne
      by discriminate.
    apply lookup_singleton_ne. discriminate.
Qed.

(** [?type=] *)
Definition empty_type : Criteria :=
  {| page := None; limit := None; startDate := None; endDate := None;
     type := Some ""; category := None; minAmount := None; maxAmount := None;
     paymentMethod := None; sortBy := None; sortOrder := None |}.

Example listSavings_empty_type :
  listSavings sampleDate sampleFloat digits_value
    (sampleInt 1 1000000) (sampleInt 1 100) sampleDay all_digits
    "u1" empty_type ∅
  = listSavings sampleDate sampleFloat digits_value
      (sampleInt 1 1000000) (sampleInt 1 100) sampleDay all_digits
      "u1" no_criteria ∅.
Proof. vm_compute. reflexivity. Qed.
End ListingWindow.

(** ** models/Savings.js: the static [getByType] *)

Module Statics.
Import JS Listing.






End Statics.

(** ** Monthly trends: what an entry holds *)

Module TrendEntries.
Import JS Trends.


(** The amounts of the documents of [docs] taken by the query and dated in
    month [m], added in document order. *)
Definition monthSum (q : Txn -> bool) (docs : list Txn) (m : Z) : float :=
  fold_left (fun s t => (s + amount t)%float)
    (List.filter (fun t => (utcMonth (date t) =? m)%Z) (List.filter q docs))
    0%float.

Lemma monthSum_empty (q : Txn -> bool) (docs : list Txn) (m : Z) :
  (forall t, In t docs -> q t = true -> utcMonth (date t) <> m) ->
  monthSum q docs m = 0%float.
Proof.
  intros Hno. unfold monthSum.
  replace (List.filter (fun t => (utcMonth (date t) =? m)%Z) (List.filter q docs))
    with (@nil Txn); [reflexivity|].
  symmetry.
  destruct (List.filter _ (List.filter q docs)) as [|t l] eqn:Hf; [reflexivity|].
  assert (Hin : In t (List.filter (fun t => (utcMonth (date t) =? m)%Z)
                        (List.filter q docs)))
    by (rewrite Hf; left; reflexivity).
  apply filter_In in Hin as [Hin Hm]. apply filter_In in Hin as [Hin Hq].
  exfalso. apply (Hno t Hin Hq). lia.
Qed.




(** X20: the reply is the same when the records of other users are removed from
    the two collections. *)
Theorem monthlyTrends_owner_view
    (isYear : string -> bool) (yearNumber : string -> Z) (thisYear : Z)
    (yearStart yearEnd : Z -> Z)
    (uid : ObjectId) (y cur : option string)
    (expenseDocs savingsDocs : list Txn) :
  monthlyTrends isYear yearNumber thisYear yearStart yearEnd uid y cur
    expenseDocs savingsDocs
  = monthlyTrends isYear yearNumber thisYear yearStart yearEnd uid y cur
      (List.filter (fun t => bool_decide (owner t = uid)) expenseDocs)
      (List.filter (fun t => bool_decide (owner t = uid)) savingsDocs).
Proof.
  assert (Hf : forall q' docs,
             (forall t, q' t = true -> bool_decide (owner t = uid) = true) ->
             List.filter q' (List.filter (fun t => bool_decide (owner t = uid)) docs)
             = List.filter q' docs).
  { intros q' docs Hq. induction docs as [|t docs IH]; [reflexivity|].
    simpl. destruct (bool_decide (owner t = uid)) eqn:Ho; simpl.
    - rewrite IH. reflexivity.
    - destruct (q' t) eqn:Hqt; [|exact IH].
      rewrite (Hq t Hqt) in Ho. discriminate Ho. }
  unfold monthlyTrends. destruct (Listing.optional isYear y); [|reflexivity].
  cbv zeta. rewrite !Hf; [reflexivity| |];
    intros t Hq; unfold baseQuery in Hq;
    repeat (apply andb_prop in Hq as [Hq ?]); exact Hq.
Qed.
End TrendEntries.

(** ** Pie charts: the colors of the slices *)

Module ChartColors.

(** What [colors[name] || '#BDC3C7'] evaluates to: a color of the table or
    the fallback, or, for a name that an object inherits from
    [Object.prototype], that inherited member. *)
Inductive Looked : Type :=
| Color (hex : string)
| Inherited (name : string).

Definition objectPrototype : list string :=
  ["constructor"; "__defineGetter__"; "__defineSetter__"; "hasOwnProperty";
   "__lookupGetter__"; "__lookupSetter__"; "isPrototypeOf";
   "propertyIsEnumerable"; "toString"; "valueOf"; "__proto__";
   "toLocaleString"].

Definition lookupColor (colors : list (string * string)) (name : string) : Looked :=
  match List.find (fun kv => String.eqb kv.1 name) colors with
  | Some kv => Color kv.2
  | None =>
      if existsb (String.eqb name) objectPrototype then Inherited name
      else Color "#BDC3C7"
  end.

Definition categoryColors : list (string * string) :=
  [ ("Food & Dining", "#FF6B6B"); ("Transportation", "#4ECDC4");
    ("Shopping", "#45B7D1"); ("Entertainment", "#96CEB4");
    ("Healthcare", "#FFEAA7"); ("Housing", "#DDA0DD");
    ("Utilities", "#98D8C8"); ("Insurance", "#F7DC6F");
    ("Education", "#BB8FCE"); ("Travel", "#85C1E9");
    ("Personal Care", "#F8C471"); ("Gifts", "#F1948A");
    ("Subscriptions", "#85C1E9"); ("Other", "#BDC3C7") ].

Definition savingsTypeColors : list (string * string) :=
  [ ("Daily", "#E74C3C"); ("Weekly", "#E67E22"); ("Monthly", "#F39C12");
    ("Yearly", "#F1C40F"); ("Goal", "#2ECC71"); ("Emergency Fund", "#3498DB");
    ("Investment", "#9B59B6") ].

Definition getCategoryColor (category : string) : Looked :=
  lookupColor categoryColors category.

Definition getSavingsTypeColor (type : string) : Looked :=
  lookupColor savingsTypeColors type.

(** The enumerations of the two schemas. *)
Definition expenseCategories : list string :=
  ["Food & Dining"; "Transportation"; "Shopping"; "Entertainment";
   "Healthcare"; "Housing"; "Utilities"; "Insurance"; "Education"; "Travel";
   "Personal Care"; "Gifts"; "Subscriptions"; "Other"].

Definition savingsTypes : list string :=
  ["Daily"; "Weekly"; "Monthly"; "Yearly"; "Goal"; "Emergency Fund"; "Investment"].

Definition looked_eqb (a b : Looked) : bool :=
  match a, b with
  | Color x, Color y | Inherited x, Inherited y => String.eqb x y
  | _, _ => false
  end.

Lemma looked_eqb_eq (a b : Looked) : looked_eqb a b = true <-> a = b.
Proof.
  destruct a, b; simpl; rewrite ?String.eqb_eq; split; intros H;
    try discriminate; try congruence.
Qed.

(** X21: the seven savings types get seven different colors, none of them the
    fallback, so the slices of a savings pie chart can be told apart and from
    an unknown type.  The fourteen expense categories all have a color of the
    table, but not fourteen different ones: Travel and Subscriptions share
    one, and Other has the color of the fallback. *)
Theorem colors_spec :
  (forall a b, a ∈ savingsTypes -> b ∈ savingsTypes ->
     getSavingsTypeColor a = getSavingsTypeColor b -> a = b)
  /\ (forall a, a ∈ savingsTypes -> getSavingsTypeColor a <> Color "#BDC3C7")
  /\ (forall a, a ∈ expenseCategories ->
      exists hex, getCategoryColor a = Color hex /\ (a, hex) ∈ categoryColors)
  /\ getCategoryColor "Travel" = getCategoryColor "Subscriptions"
  /\ (forall name, name ∉ expenseCategories -> name ∉ objectPrototype ->
      getCategoryColor name = getCategoryColor "Other").
Proof.
  split; [|split; [|split; [|split]]].
  - intros a b Ha Hb.
    assert (Hall : forallb (fun a => forallb (fun b =>
               implb (looked_eqb (getSavingsTypeColor a) (getSavingsTypeColor b))
                     (String.eqb a b)) savingsTypes) savingsTypes = true)
      by (vm_compute; reflexivity).
    rewrite forallb_forall in Hall.
    specialize (Hall a (proj1 (list_elem_of_In _ _) Ha)).
    rewrite forallb_forall in Hall.
    specialize (Hall b (proj1 (list_elem_of_In _ _) Hb)).
    intros Heq. apply looked_eqb_eq in Heq. rewrite Heq in Hall.
    apply String.eqb_eq. exact Hall.
  - intros a Ha.
    assert (Hall : forallb (fun a =>
               negb (looked_eqb (getSavingsTypeColor a) (Color "#BDC3C7")))
               savingsTypes = true) by (vm_compute; reflexivity).
    rewrite forallb_forall in Hall.
    specialize (Hall a (proj1 (list_elem_of_In _ _) Ha)).
    intros Heq. apply looked_eqb_eq in Heq. rewrite Heq in Hall. discriminate.
  - intros a Ha. unfold expenseCategories in Ha.
    repeat (apply elem_of_cons in Ha as [-> | Ha];
            [eexists; split; [reflexivity|];
             unfold categoryColors; set_solver|]).
    inversion Ha.
  - reflexivity.
  - intros name Hcat Hproto. unfold getCategoryColor, lookupColor.
    assert (Hfind : List.find (fun kv => String.eqb kv.1 name) categoryColors = None).
    { destruct (List.find _ categoryColors) as [kv|] eqn:Hf; [|reflexivity].
      apply find_some in Hf as [Hin Heq]. apply String.eqb_eq in Heq.
      exfalso. apply Hcat. subst name.
      unfold categoryColors in Hin. simpl in Hin.
      repeat (destruct Hin as [<- | Hin]; [set_solver|]). destruct Hin. }
    rewrite Hfind.
    assert (Hex : existsb (String.eqb name) objectPrototype = false).
    { apply not_true_is_false. intros Hex.
      apply existsb_exists in Hex as (p & Hin & Heq).
      apply String.eqb_eq in Heq. subst p.
      apply Hproto, list_elem_of_In, Hin. }
    rewrite Hex. reflexivity.
Qed.
End ChartColors.

(** ** models/Savings.js and routes/savings.js: the summary by period *)

Module PeriodSummary.
Import JS Savings.
Local Open Scope float_scope.

(** [$match: { user: ObjectId(userId), date: { $gte: startDate, $lte: endDate } }]
    where each bound is a Date or [null].  A comparison with [null] holds of
    no Date, so a missing bound leaves no document. *)
Definition inPeriod (userId : ObjectId) (startDate endDate : option float)
    (d : SavingsDoc) : bool :=
  bool_decide (user d = userId)
  && match startDate with Some s => geb (date d) s | None => false end
  && match endDate with Some e => geb e (date d) | None => false end.

(** The accumulators of a [$group] stage: [{ $sum: '$amount' }] and
    [{ $sum: 1 }], kept for each value of the grouping key.  Amounts are added
    in document order. *)
Definition accumulate (key : SavingsDoc -> string)
    (groups : gmap string (float * Z)) (d : SavingsDoc) : gmap string (float * Z) :=
  let g := default (0%float, 0%Z) (groups !! key d) in
  <[key d := (g.1 + amount d, (g.2 + 1)%Z)]> groups.

Definition groupBy (key : SavingsDoc -> string) (docs : list SavingsDoc)
    : gmap string (float * Z) :=
  fold_left (accumulate key) docs ∅.

(** The static [getSummaryByPeriod]: the groups by [type], each with its
    total and count ([average] is their quotient); the order that
    [$sort: { total: -1 }] gives the rows is not represented. *)
Definition getSummaryByPeriod (userId : ObjectId) (startDate endDate : option float)
    (docs : list SavingsDoc) : gmap string (float * Z) :=
  groupBy type (List.filter (inPeriod userId startDate endDate) docs).

(** The static [getTotalByDateRange]: one row for the group [_id: null] when
    a document matches, none otherwise. *)
Definition getTotalByDateRange (userId : ObjectId) (startDate endDate : option float)
    (docs : list SavingsDoc) : list (float * Z) :=
  match List.filter (inPeriod userId startDate endDate) docs with
  | [] => []
  | ds => [ (fold_left (fun s d => s + amount d) ds 0, Z.of_nat (length ds)) ]
  end.

Record SummaryReply := {
  summary : gmap string (float * Z);
  total : float;
  count : Z
}.

Section Route.
(** [new Date(s)] on a parameter of the query string. *)
Variable newDate : string -> float.

(** [startDate ? new Date(startDate) : null] *)
Definition dateOrNull (o : option string) : option float :=
  if Listing.supplied_truthy o then Some (newDate (default "" o)) else None.

(** [GET /api/savings/summary/period].  The handler does not consult the
    result of its validation chain, and the [query] object it builds is not
    used.  The [period] echo of the reply is not represented. *)
Definition summaryByPeriod (uid : ObjectId) (startDate endDate : option string)
    (docs : list SavingsDoc) : Reply SummaryReply :=
  let summary := getSummaryByPeriod uid (dateOrNull startDate) (dateOrNull endDate) docs in
  let totalResult := getTotalByDateRange uid (dateOrNull startDate) (dateOrNull endDate) docs in
  let total := match totalResult with r :: _ => r | [] => (0%float, 0%Z) end in
  Success {| summary := summary; total := total.1; count := total.2 |}.
End Route.

(** *** Groups *)







(** X22: the summary of a period needs both bounds: when the start or the end
    date is missing or empty nothing matches, so the reply has no group,
    total 0 and count 0, whatever the user has stored. *)
Theorem summaryByPeriod_one_bound (newDate : string -> float)
    (uid : ObjectId) (startDate endDate : option string) (docs : list SavingsDoc) :
  Listing.supplied_truthy startDate = false \/ Listing.supplied_truthy endDate = false ->
  summaryByPeriod newDate uid startDate endDate docs
  = Success {| summary := ∅; total := 0; count := 0 |}.
Proof.
  intros H. unfold summaryByPeriod, getSummaryByPeriod, getTotalByDateRange.
  assert (Hf : List.filter (inPeriod uid (dateOrNull newDate startDate)
                              (dateOrNull newDate endDate)) docs = []).
  { induction docs as [|d docs IH]; [reflexivity|]. simpl. rewrite IH.
    replace (inPeriod uid (dateOrNull newDate startDate)
               (dateOrNull newDate endDate) d) with false; [reflexivity|].
    unfold inPeriod, dateOrNull. destruct H as [-> | ->]; simpl.
    - rewrite andb_false_r. reflexivity.
    - rewrite andb_false_r. reflexivity. }
  rewrite Hf. reflexivity.
Qed.

Lemma summaryByPeriod_one_bound_witness :
  summaryByPeriod Listing.sampleDate "u" (Some "2024-01-01") None
    [sample "u" 50 None; sample "u" 70 None]
  = Success {| summary := ∅; total := 0; count := 0 |}.
Proof.
  apply (summaryByPeriod_one_bound Listing.sampleDate "u" (Some "2024-01-01") None).
  right. reflexivity.
Defined.

End PeriodSummary.
